(** * Multi-armed bandits tutorial: the simulator and its strategies

    A shallow embedding of [Multi_Armed_Bandits_Tutorial.ipynb]: the
    strategy classes ([RandomAlg] and the five classes whose bodies the
    notebook leaves to the reader) and [run_simulation].

    Python objects live in a store that is threaded through every call; an
    exception aborts the computation and keeps the store as it was when the
    exception was raised.  Floats are IEEE binary64 ([PrimFloat]), Python
    integers are [Z].  numpy's process-wide generator is a parameter
    ([RandomState]): the notebook only ever draws from it. *)

From Stdlib Require Import ZArith Lia Floats.PrimFloat.
From Stdlib Require String DecimalString DecimalZ DecimalPos.
From stdpp Require Import base tactics option list list_numbers.
Import String.StringSyntax.
Delimit Scope string_scope with pystr.

Local Open Scope Z_scope.

(** ** Python values and exceptions *)

(** What [choose_arm] hands back: an [int], or [None] when the body of the
    method is only a docstring. *)
Inductive pyobj : Set :=
  | PyInt (z : Z)
  | PyNone.

(** What numpy and scipy hand back for a reward or a mean: a scalar, or an
    array.  [Row xs] is an array whose elements are [xs], with any number
    of leading axes of length one: [a[None]] has shape (1, len), and what
    scipy draws for it has shape (len,). *)
Inductive ndval : Set :=
  | Scalar (x : float)
  | Row (xs : list float).

Inductive exn : Set :=
  | ValueError
  | IndexError
  | TypeError
  | OverflowError.

Inductive outcome (A : Type) : Type :=
  | Return (a : A)
  | Raise (e : exn).
Arguments Return {A} a.
Arguments Raise {A} e.

(** [fails o]: the call did not return. *)
Definition fails {A : Type} (o : outcome A) : Prop := exists e, o = Raise e.

(** ** Computations over a store *)

Definition py (S A : Type) : Type := S -> outcome A * S.

Definition ret {S A : Type} (a : A) : py S A := fun s => (Return a, s).

Definition bind {S A B : Type} (m : py S A) (f : A -> py S B) : py S B :=
  fun s =>
    match m s with
    | (Return a, s') => f a s'
    | (Raise e, s') => (Raise e, s')
    end.

Definition of_outcome {S A : Type} (o : outcome A) : py S A := fun s => (o, s).

Declare Scope py_scope.
Delimit Scope py_scope with py.
Notation "x <- m ;; f" := (bind m (fun x => f))
  (at level 100, m at next level, right associativity) : py_scope.
Notation "m ;; f" := (bind m (fun _ => f))
  (at level 100, right associativity) : py_scope.
Local Open Scope py_scope.

(** ** numpy's global generator *)

(** [np.random] as the notebook uses it: seeding, [randint] and the normal
    draw behind [scipy.stats.norm.rvs].  [randint_draw low high] is only
    consulted when [low < high]; numpy promises a value in [[low, high)]. *)
Class RandomState (G : Type) : Type := {
  seed_state : Z -> G;
  randint_draw : Z -> Z -> G -> Z * G;
  normal_draw : float -> float -> G -> float * G;
  randint_draw_range : forall low high g,
    low < high -> low <= fst (randint_draw low high g) < high
}.

(** ** The interpreter state a method can reach *)

(** [self] is the strategy object, [np_random] numpy's global generator and
    [k] the module-level variable of the notebook. *)
Record pyworld (G St : Type) : Type := World {
  self : St;
  np_random : G;
  k : Z
}.
Arguments World {G St} self np_random k.
Arguments self {G St} _.
Arguments np_random {G St} _.
Arguments k {G St} _.

Definition set_np_random {G St : Type} (g : G) (w : pyworld G St) : pyworld G St :=
  World (self w) g (k w).

Definition int64_bound : Z := 2 ^ 63.

(** [np.random.randint(low=low, high=high)] with the default 64-bit dtype. *)
Definition np_random_randint {G St : Type} `{RandomState G} (low high : Z)
  : py (pyworld G St) Z :=
  fun w =>
    if (high <=? low) || (low <? - int64_bound) || (int64_bound <? high)
    then (Raise ValueError, w)
    else let (v, g) := randint_draw low high (np_random w) in
         (Return v, set_np_random g w).

(** [np.random.seed(x)]: the legacy seeding accepts 32-bit unsigned integers. *)
Definition np_random_seed {G St : Type} `{RandomState G} (x : Z)
  : py (pyworld G St) unit :=
  fun w =>
    if (x <? 0) || (2 ^ 32 <=? x)
    then (Raise ValueError, w)
    else (Return tt, set_np_random (seed_state x) w).

(** One draw per element, in order, as [standard_normal(size=...)] fills an
    array. *)
Fixpoint normal_draws {G : Type} `{RandomState G} (locs : list float) (scale : float)
  (g : G) : list float * G :=
  match locs with
  | [] => ([], g)
  | loc :: locs' =>
      let (x, g1) := normal_draw loc scale g in
      let (xs, g2) := normal_draws locs' scale g1 in
      (x :: xs, g2)
  end.

(** scipy reads [loc] without its leading axes of length one: an array
    that holds a single mean is read as that mean. *)
Definition squeeze_left (loc : ndval) : ndval :=
  match loc with
  | Row [m] => Scalar m
  | _ => loc
  end.

(** [scipy.stats.norm.rvs(loc=loc, scale=scale)]: one draw per mean; the
    result is a float for a single mean and an array otherwise. *)
Definition norm_rvs {G St : Type} `{RandomState G} (loc : ndval) (scale : float)
  : py (pyworld G St) ndval :=
  fun w =>
    match squeeze_left loc with
    | Scalar m =>
        let (x, g) := normal_draw m scale (np_random w) in
        (Return (Scalar x), set_np_random g w)
    | Row ms =>
        let (xs, g) := normal_draws ms scale (np_random w) in
        (Return (Row xs), set_np_random g w)
    end.

(** ** numpy arrays of floats *)

(** The exception numpy raises for a Python integer it cannot read as an
    index: [OverflowError] when the integer fits an unsigned but not a
    signed 64-bit word, [IndexError] for every other one. *)
Definition index_refusal (i : Z) : exn :=
  if (int64_bound <=? i) && (i <? 2 ^ 64) then OverflowError else IndexError.

(** numpy's reading of an integer index: negative indices count from the
    end, anything else out of range is refused. *)
Definition normalize_index (len : nat) (i : Z) : outcome nat :=
  if (0 <=? i) && (i <? Z.of_nat len) then Return (Z.to_nat i)
  else if (- Z.of_nat len <=? i) && (i <? 0) then Return (Z.to_nat (Z.of_nat len + i))
  else Raise (index_refusal i).

(** [a[i]]: an element, or with [None] the whole array under a new axis. *)
Definition np_getitem (a : list float) (i : pyobj) : outcome ndval :=
  match i with
  | PyInt z =>
      match normalize_index (length a) z with
      | Return j =>
          match a !! j with
          | Some x => Return (Scalar x)
          | None => Raise IndexError
          end
      | Raise e => Raise e
      end
  | PyNone => Return (Row a)
  end.

(** The float that lands in one cell on [a[i] = v]: a scalar as it is; an
    array is refused, whatever it holds ("setting an array element with a
    sequence"). *)
Definition as_cell (v : ndval) : outcome float :=
  match v with
  | Scalar x => Return x
  | Row _ => Raise ValueError
  end.

(** [a[i] = v] *)
Definition np_setitem (a : list float) (i : Z) (v : ndval) : outcome (list float) :=
  match normalize_index (length a) i with
  | Return j =>
      match as_cell v with
      | Return x => Return (<[j := x]> a)
      | Raise e => Raise e
      end
  | Raise e => Raise e
  end.

(** [np.zeros(n)]; memory is not modelled, an array of any length can be
    created. *)
Definition np_zeros (n : Z) : outcome (list float) :=
  if n <? 0 then Raise ValueError else Return (replicate (Z.to_nat n) 0%float).

(** [range(n)] *)
Definition range (n : Z) : list Z := seqZ 0 n.

(** ** The strategy interface *)

(** The three methods [run_simulation] calls on its [algorithm] argument. *)
Class Algorithm (G St : Type) : Type := {
  reset : py (pyworld G St) unit;
  choose_arm : py (pyworld G St) pyobj;
  observe_reward : pyobj -> ndval -> py (pyworld G St) unit
}.

(** ** The strategies of the notebook *)

(** [RandomAlg]: no attribute is ever set on the object. *)
Module RandomAlg.

Record t : Set := Build {}.

Definition __init__ : outcome t := Return Build.

Section Methods.
Context {G : Type} `{RandomState G}.

Definition reset : py (pyworld G t) unit := ret tt.

(** [return np.random.randint(low=0, high=k)], with [k] looked up in the
    module's globals when the call is made. *)
Definition choose_arm : py (pyworld G t) pyobj :=
  fun w => (v <- np_random_randint 0 (k w) ;; ret (PyInt v)) w.

Definition observe_reward (arm : pyobj) (reward : ndval) : py (pyworld G t) unit :=
  ret tt.

#[global] Instance algorithm : Algorithm G t :=
  Build_Algorithm G t reset choose_arm observe_reward.

End Methods.

End RandomAlg.

(** The remaining classes store their hyperparameter in [__init__]; the
    bodies of their methods are a docstring and a TODO comment, so each
    method returns [None] and touches nothing. *)
Module ExploreThenCommit.

Record t : Set := Build { m : Z }.

Definition __init__ (m : Z) : outcome t := Return (Build m).

Section Methods.
Context {G : Type}.

Definition reset : py (pyworld G t) unit := ret tt.

Definition choose_arm : py (pyworld G t) pyobj := ret PyNone.

Definition observe_reward (arm : pyobj) (reward : ndval) : py (pyworld G t) unit :=
  ret tt.

#[global] Instance algorithm : Algorithm G t :=
  Build_Algorithm G t reset choose_arm observe_reward.

End Methods.

End ExploreThenCommit.

Module EpsilonGreedy.

Record t : Set := Build { epsilon : float }.

Definition __init__ (epsilon : float) : outcome t := Return (Build epsilon).

Section Methods.
Context {G : Type}.

Definition reset : py (pyworld G t) unit := ret tt.

Definition choose_arm : py (pyworld G t) pyobj := ret PyNone.

Definition observe_reward (arm : pyobj) (reward : ndval) : py (pyworld G t) unit :=
  ret tt.

#[global] Instance algorithm : Algorithm G t :=
  Build_Algorithm G t reset choose_arm observe_reward.

End Methods.

End EpsilonGreedy.

Module UCB1.

Record t : Set := Build { C : float }.

Definition __init__ (C : float) : outcome t := Return (Build C).

Section Methods.
Context {G : Type}.

Definition reset : py (pyworld G t) unit := ret tt.

Definition choose_arm : py (pyworld G t) pyobj := ret PyNone.

Definition observe_reward (arm : pyobj) (reward : ndval) : py (pyworld G t) unit :=
  ret tt.

#[global] Instance algorithm : Algorithm G t :=
  Build_Algorithm G t reset choose_arm observe_reward.

End Methods.

End UCB1.

Module GradientBandit.

Record t : Set := Build { alpha : float }.

Definition __init__ (alpha : float) : outcome t := Return (Build alpha).

Section Methods.
Context {G : Type}.

Definition reset : py (pyworld G t) unit := ret tt.

Definition choose_arm : py (pyworld G t) pyobj := ret PyNone.

Definition observe_reward (arm : pyobj) (reward : ndval) : py (pyworld G t) unit :=
  ret tt.

#[global] Instance algorithm : Algorithm G t :=
  Build_Algorithm G t reset choose_arm observe_reward.

End Methods.

End GradientBandit.

Module GradientBanditBaseline.

Record t : Set := Build { alpha : float }.

Definition __init__ (alpha : float) : outcome t := Return (Build alpha).

Section Methods.
Context {G : Type}.

Definition reset : py (pyworld G t) unit := ret tt.

Definition choose_arm : py (pyworld G t) pyobj := ret PyNone.

Definition observe_reward (arm : pyobj) (reward : ndval) : py (pyworld G t) unit :=
  ret tt.

#[global] Instance algorithm : Algorithm G t :=
  Build_Algorithm G t reset choose_arm observe_reward.

End Methods.

End GradientBanditBaseline.

(** ** The simulator *)

(** What [run_simulation] did, in the order it did it.  An event is logged
    when the operation has returned: [EvReset] when [reset()] returned,
    [EvChoose arm] when [choose_arm()] returned [arm], [EvSample loc reward]
    when [norm.rvs(loc=loc, scale=1.0)] returned [reward],
    [EvObserve arm reward] when [observe_reward(arm, reward)] returned and
    [EvStore t reward] when the assignment [rewards[t] = reward] was done. *)
Inductive event : Set :=
  | EvReset
  | EvChoose (arm : pyobj)
  | EvSample (loc reward : ndval)
  | EvObserve (arm : pyobj) (reward : ndval)
  | EvStore (t : Z) (reward : ndval).

(** The objects [run_simulation] works on: the interpreter state its
    [algorithm] argument can reach, the array behind its [true_arm_means]
    argument, and the log of what happened (ghost state: nothing reads it).
    Python passes both arguments by reference, so they are fields of the
    store rather than parameters; a method of the strategy sees [ctx] only. *)
Record store (G St : Type) : Type := Store {
  ctx : pyworld G St;
  true_arm_means : list float;
  calls : list event
}.
Arguments Store {G St} ctx true_arm_means calls.
Arguments ctx {G St} _.
Arguments true_arm_means {G St} _.
Arguments calls {G St} _.

Section Simulator.
Context {G St : Type} `{RandomState G} `{Algorithm G St}.

(** Run a computation that only sees the interpreter state. *)
Definition in_ctx {A : Type} (c : py (pyworld G St) A) : py (store G St) A :=
  fun s =>
    let (o, w) := c (ctx s) in
    (o, Store w (true_arm_means s) (calls s)).

Definition emit (e : event) : py (store G St) unit :=
  fun s => (Return tt, Store (ctx s) (true_arm_means s) (calls s ++ [e])).

(** A call whose return is logged: [c] runs on the interpreter state and,
    when it returns [a], the event [ev a] is appended to the log. *)
Definition logged {A : Type} (c : py (pyworld G St) A) (ev : A -> event)
  : py (store G St) A :=
  a <- in_ctx c ;;
  emit (ev a) ;;
  ret a.

(** [true_arm_means[arm]] *)
Definition getitem_true_arm_means (arm : pyobj) : py (store G St) ndval :=
  fun s => (np_getitem (true_arm_means s) arm, s).

(** The body of [for t in range(n)], for the values of [t] still to come. *)
Fixpoint sim_loop (ts : list Z) (rewards : list float) : py (store G St) (list float) :=
  match ts with
  | [] => ret rewards
  | t :: ts' =>
      arm <- logged choose_arm EvChoose ;;
      loc <- getitem_true_arm_means arm ;;
      reward <- logged (norm_rvs loc 1%float) (EvSample loc) ;;
      logged (observe_reward arm reward) (fun _ => EvObserve arm reward) ;;
      rewards' <- of_outcome (np_setitem rewards t reward) ;;
      emit (EvStore t reward) ;;
      sim_loop ts' rewards'
  end.

Definition run_simulation (n : Z) : py (store G St) (list float) :=
  rewards <- of_outcome (np_zeros n) ;;
  logged reset (fun _ => EvReset) ;;
  sim_loop (range n) rewards.

End Simulator.

(** [np.random.seed(x)] followed by [run_simulation(algorithm, true_arm_means, n)]. *)
Definition seeded_run {G St : Type} `{RandomState G} `{Algorithm G St} (x n : Z)
  : py (store G St) (list float) :=
  in_ctx (np_random_seed x) ;;
  run_simulation n.

(** ** Reading the log *)

(** One time step of a run: the arm [choose_arm] returned, the mean looked
    up for it, the reward drawn with that mean, and the float that went
    into the trace. *)
Record step : Set := Step {
  s_arm : pyobj;
  s_loc : ndval;
  s_reward : ndval;
  s_cell : float
}.

(** The step fits the instance: its mean is [means[arm]], and the float
    written to the trace is its reward. *)
Definition step_of_run (means : list float) (st : step) : Prop :=
  np_getitem means (s_arm st) = Return (s_loc st) /\
  as_cell (s_reward st) = Return (s_cell st).

(** The four events of time step [t], in the order they happen. *)
Definition step_events (t : Z) (st : step) : list event :=
  [ EvChoose (s_arm st);
    EvSample (s_loc st) (s_reward st);
    EvObserve (s_arm st) (s_reward st);
    EvStore t (s_reward st) ].

(** The events of consecutive time steps, from step [t] on. *)
Fixpoint run_events (t : Z) (steps : list step) : list event :=
  match steps with
  | [] => []
  | st :: steps' => step_events t st ++ run_events (t + 1) steps'
  end.

(** How many [observe_reward] calls returned since [reset] last returned. *)
Definition observes_since_reset (log : list event) : Z :=
  fold_left
    (fun c e =>
       match e with
       | EvReset => 0
       | EvObserve _ _ => c + 1
       | _ => c
       end)
    log 0.

Definition sumZ (l : list Z) : Z := fold_right Z.add 0 l.

(** The arm an event reports as chosen lies in [[0, kk)]. *)
Definition chosen_below (kk : Z) (e : event) : Prop :=
  match e with
  | EvChoose arm => exists z, arm = PyInt z /\ 0 <= z < kk
  | _ => True
  end.

(** An integer that numpy cannot read as an index into an array of [len]
    cells. *)
Definition out_of_range (len : nat) (a : Z) : Prop :=
  a < - Z.of_nat len \/ Z.of_nat len <= a.

(** The event reports the choice of such an integer. *)
Definition bad_choice (len : nat) (e : event) : Prop :=
  match e with
  | EvChoose (PyInt a) => out_of_range len a
  | _ => False
  end.

Section Contracts.
Context {G St : Type} `{RandomState G} `{Algorithm G St}.

(** [played means w steps w']: started in the interpreter state [w], the
    calls of the steps [steps] were made one after the other, each on the
    state the call before it left, every one of them returned, and the
    last one left the state [w'].  A step calls [choose_arm], draws its
    reward with the mean looked up for the arm, calls [observe_reward] with
    that arm and that reward, and has its reward written to the trace. *)
Fixpoint played (means : list float) (w : pyworld G St) (steps : list step)
  (w' : pyworld G St) : Prop :=
  match steps with
  | [] => w' = w
  | st :: steps' =>
      exists w1 w2 w3 : pyworld G St,
        choose_arm w = (Return (s_arm st), w1) /\
        norm_rvs (s_loc st) 1%float w1 = (Return (s_reward st), w2) /\
        observe_reward (s_arm st) (s_reward st) w2 = (Return tt, w3) /\
        step_of_run means st /\
        played means w3 steps' w'
  end.

(** The strategy keeps the interface's promises.  On an interpreter state
    that satisfies [Pre], [reset] returns and establishes [Inv]; on a state
    that satisfies [Inv], [choose_arm] returns an arm of the problem
    instance, and [observe_reward] returns when it is handed an arm of the
    instance and a float; [Inv] survives each of these calls and each draw
    from the generator.  Nothing is asked of [observe_reward] on any other
    argument. *)
Definition honours_contract (Pre Inv : pyworld G St -> Prop) (means : list float) : Prop :=
  (forall w, Pre w -> exists w', reset w = (Return tt, w') /\ Inv w') /\
  (forall w, Inv w ->
     exists a w', choose_arm w = (Return (PyInt a), w') /\
                  0 <= a < Z.of_nat (length means) /\ Inv w') /\
  (forall a x w, Inv w -> 0 <= a < Z.of_nat (length means) ->
     exists w', observe_reward (PyInt a) (Scalar x) w = (Return tt, w') /\ Inv w') /\
  (forall g w, Inv w -> Inv (set_np_random g w)).

(** [counts] reads per-arm pull counts off the strategy object, and the
    methods treat them as pull counts: [reset] zeroes them,
    [observe_reward] adds one pull, nothing else touches them. *)
Definition keeps_counts (counts : St -> list Z) : Prop :=
  (forall w w', reset w = (Return tt, w') -> sumZ (counts (self w')) = 0) /\
  (forall w e w', reset w = (Raise e, w') -> counts (self w') = counts (self w)) /\
  (forall w o w', choose_arm w = (o, w') -> counts (self w') = counts (self w)) /\
  (forall arm reward w w', observe_reward arm reward w = (Return tt, w') ->
     sumZ (counts (self w')) = sumZ (counts (self w)) + 1) /\
  (forall arm reward w e w', observe_reward arm reward w = (Raise e, w') ->
     counts (self w') = counts (self w)).

(** The invariant of the data model: the counts add up to the number of
    rewards observed since the last reset. *)
Definition counts_ok (counts : St -> list Z) (s : store G St) : Prop :=
  sumZ (counts (self (ctx s))) = observes_since_reset (calls s).

(** [P] survives the call [c] and the logging of its return. *)
Definition stable_call (P : store G St -> Prop) {A : Type}
  (c : py (pyworld G St) A) (ev : A -> event) : Prop :=
  forall s, P s ->
    match c (ctx s) with
    | (Return a, w) => P (Store w (true_arm_means s) (calls s ++ [ev a]))
    | (Raise _, w) => P (Store w (true_arm_means s) (calls s))
    end.

(** Of the events logged after [log0], none is a bad choice. *)
Definition no_bad_choice (log0 : list event) (means : list float) (s : store G St) : Prop :=
  true_arm_means s = means /\
  exists new, calls s = log0 ++ new /\
              Forall (fun e => ~ bad_choice (length means) e) new.

(** Of the events logged after [log0], the last is the choice of [a], a
    bad choice, and it is the only one. *)
Definition ends_with_bad_choice (log0 : list event) (means : list float) (a : Z)
  (s : store G St) : Prop :=
  true_arm_means s = means /\
  exists pre, calls s = log0 ++ pre ++ [EvChoose (PyInt a)] /\
              Forall (fun e => ~ bad_choice (length means) e) pre /\
              out_of_range (length means) a.

(** A computation either logs no bad choice at all, or stops right after
    the first one, with the exception numpy raises for that index. *)
Definition no_bad_choice_or_raised (log0 : list event) (means : list float) {A : Type}
  (o : outcome A) (s : store G St) : Prop :=
  no_bad_choice log0 means s \/
  exists a, o = Raise (index_refusal a) /\ ends_with_bad_choice log0 means a s.

End Contracts.

(** ** Chance *)

(** A draw is a function of the generator's state, so how likely an answer
    is depends on how likely the states are.  [gs] lists generator states
    that are equally likely (a state listed twice is twice as likely). *)

(** numpy's promise for [randint(low, high)], the discrete uniform
    distribution over [[low, high)], on the states [gs]: every value of the
    interval is drawn from the same share of them, one in [high - low]. *)
Definition randint_uniform {G : Type} `{RandomState G} (low high : Z) (gs : list G) : Prop :=
  forall a, low <= a < high ->
    Z.of_nat (length (List.filter (fun g => fst (randint_draw low high g) =? a) gs))
    * (high - low) = Z.of_nat (length gs).

(** The call returned the arm [a]. *)
Definition returns_arm (a : Z) (o : outcome pyobj) : bool :=
  match o with
  | Return (PyInt z) => z =? a
  | _ => false
  end.

(** [c], the outcome of a choice as a function of the generator's state,
    picks uniformly among the arms [[0, kk)] on the states [gs]: each arm
    is returned from the same share of them, one in [kk]. *)
Definition chosen_uniformly {G : Type} (kk : Z) (c : G -> outcome pyobj) (gs : list G) : Prop :=
  forall a, 0 <= a < kk ->
    Z.of_nat (length (List.filter (fun g => returns_arm a (c g)) gs)) * kk =
    Z.of_nat (length gs).

(** [observe_reward] called with each pair of [history], in order. *)
Fixpoint observe_all {G St : Type} `{Algorithm G St} (history : list (pyobj * ndval))
  : py (pyworld G St) unit :=
  match history with
  | [] => ret tt
  | (arm, reward) :: rest => observe_reward arm reward ;; observe_all rest
  end.

(** ** A small generator to run the model on *)

(** A linear congruential generator standing in for numpy's Mersenne
    twister wherever a concrete run is evaluated. *)
Module Lcg.

Definition next (g : Z) : Z := (1103515245 * g + 12345) mod 2 ^ 31.

Definition randint_draw (low high g : Z) : Z * Z :=
  (low + next g mod (high - low), next g).

Definition normal_draw (loc scale : float) (g : Z) : float * Z :=
  ((loc + scale * (if Z.even (next g / 65536) then 1 else -1))%float, next g).

Lemma randint_draw_range (low high g : Z) :
  low < high -> low <= fst (randint_draw low high g) < high.
Proof.
  intros Hlt. unfold randint_draw. cbn [fst].
  pose proof (Z.mod_pos_bound (next g) (high - low)). lia.
Qed.

#[global] Instance random_state : RandomState Z :=
  Build_RandomState Z (fun x => x) randint_draw normal_draw randint_draw_range.

End Lcg.

(** ** Two strategies to run the simulator on *)

(** A strategy whose [choose_arm] returns the value it was built with,
    whatever that value is; it learns nothing. *)
Module ConstantArm.

Record t : Set := Build { answer : pyobj }.

Section Methods.
Context {G : Type}.

Definition reset : py (pyworld G t) unit := ret tt.

Definition choose_arm : py (pyworld G t) pyobj :=
  fun w => (Return (answer (self w)), w).

Definition observe_reward (arm : pyobj) (reward : ndval) : py (pyworld G t) unit :=
  ret tt.

#[global] Instance algorithm : Algorithm G t :=
  Build_Algorithm G t reset choose_arm observe_reward.

End Methods.

End ConstantArm.

(** A strategy that keeps one pull count per arm in a Python list:
    [reset] sets [self.counts = [0] * k], [choose_arm] returns arm 0 and
    [observe_reward] does [self.counts[arm] += 1].  A list reads negative
    indices as numpy does and answers every other integer out of range
    with [IndexError]. *)
Module PullCounter.

Record t : Set := Build { counts : list Z }.

Section Methods.
Context {G : Type}.

Definition reset : py (pyworld G t) unit :=
  fun w => (Return tt, World (Build (replicate (Z.to_nat (k w)) 0)) (np_random w) (k w)).

Definition choose_arm : py (pyworld G t) pyobj := ret (PyInt 0).

Definition observe_reward (arm : pyobj) (reward : ndval) : py (pyworld G t) unit :=
  fun w =>
    match arm with
    | PyInt a =>
        match normalize_index (length (counts (self w))) a with
        | Return j =>
            match counts (self w) !! j with
            | Some c =>
                (Return tt,
                 World (Build (<[j := c + 1]> (counts (self w)))) (np_random w) (k w))
            | None => (Raise IndexError, w)
            end
        | Raise _ => (Raise IndexError, w)
        end
    | PyNone => (Raise TypeError, w)
    end.

#[global] Instance algorithm : Algorithm G t :=
  Build_Algorithm G t reset choose_arm observe_reward.

End Methods.

End PullCounter.

(** ** Stores to run the model on *)

(** Three arms with means 0, 0 and 5. *)
Definition three_arms : list float := [0%float; 0%float; 5%float].

(** [RandomAlg()] on three arms, [k = 3], generator state 2077. *)
Definition random_store : store Z RandomAlg.t :=
  Store (World RandomAlg.Build 2077 3) three_arms [].

(** [RandomAlg()] on a single arm while the global [k] is still 3. *)
Definition one_arm_store : store Z RandomAlg.t :=
  Store (World RandomAlg.Build 2077 3) [5%float] [].

(** [ExploreThenCommit(m=1)] on three arms, [k = 3]. *)
Definition etc_store : store Z ExploreThenCommit.t :=
  Store (World (ExploreThenCommit.Build 1) 2077 3) three_arms [].

(** A strategy that answers -1 on two arms, [k = 2]. *)
Definition minus_one_store : store Z ConstantArm.t :=
  Store (World (ConstantArm.Build (PyInt (-1))) 2077 2) [0%float; 5%float] [].

(** A strategy that answers 2 on two arms, [k = 2]. *)
Definition two_store : store Z ConstantArm.t :=
  Store (World (ConstantArm.Build (PyInt 2)) 2077 2) [0%float; 5%float] [].

(** A strategy that answers 2^63 on two arms, [k = 2]. *)
Definition big_store : store Z ConstantArm.t :=
  Store (World (ConstantArm.Build (PyInt (2 ^ 63))) 2077 2) [0%float; 5%float] [].

(** The counting strategy on two arms, [k = 2], before its first reset. *)
Definition counter_store : store Z PullCounter.t :=
  Store (World (PullCounter.Build []) 2077 2) [0%float; 5%float] [].

(** ** The rest of the notebook: labels, problem suite, experiments *)

(** Python's [str] of an [int]: decimal digits, a leading minus sign for a
    negative number. *)
Definition str_int (z : Z) : String.string :=
  DecimalString.NilZero.string_of_int (Z.to_int z).

(** [RandomAlg.__str__] *)
Definition RandomAlg__str__ (self : RandomAlg.t) : String.string := "Random"%pystr.

(** [ExploreThenCommit.__str__]: the f-string [ETC({self.m})]. *)
Definition ExploreThenCommit__str__ (self : ExploreThenCommit.t) : String.string :=
  String.append "ETC("%pystr
    (String.append (str_int (ExploreThenCommit.m self)) ")"%pystr).

(** [np.zeros(shape=(rows, cols))], a list of rows. *)
Definition np_zeros2 (rows cols : Z) : outcome (list (list float)) :=
  if (rows <? 0) || (cols <? 0) then Raise ValueError
  else Return (replicate (Z.to_nat rows) (replicate (Z.to_nat cols) 0%float)).

(** [a[i, :] = v] for a one-dimensional [v]: [v] must have the length of the
    row, or a single element, which numpy then repeats along the row. *)
Definition np_setrow (a : list (list float)) (i : Z) (v : list float)
  : outcome (list (list float)) :=
  match normalize_index (length a) i with
  | Return j =>
      match a !! j with
      | Some row =>
          if (length v =? length row)%nat then Return (<[j := v]> a)
          else match v with
               | [x] => Return (<[j := replicate (length row) x]> a)
               | _ => Raise ValueError
               end
      | None => Raise IndexError
      end
  | Raise e => Raise e
  end.

(** [np.cumsum] of a one-dimensional array: the first cell is copied, every
    later cell is the previous result plus the next element. *)
Fixpoint cumsum_from (acc : float) (l : list float) : list float :=
  match l with
  | [] => []
  | x :: l' => (acc + x)%float :: cumsum_from (acc + x)%float l'
  end.

Definition np_cumsum (l : list float) : list float :=
  match l with
  | [] => []
  | x :: l' => x :: cumsum_from x l'
  end.

(** [np.cumsum(rewards_matrix, axis=1, dtype=np.float64)] *)
Definition cumulative_rewards (rewards_matrix : list (list float)) : list (list float) :=
  map np_cumsum rewards_matrix.

(** Rows of normal draws, filled row after row. *)
Fixpoint normal_rows {G : Type} `{RandomState G} (rows : nat) (locs : list float)
  (scale : float) (g : G) : list (list float) * G :=
  match rows with
  | O => ([], g)
  | S rows' =>
      let (row, g1) := normal_draws locs scale g in
      let (rest, g2) := normal_rows rows' locs scale g1 in
      (row :: rest, g2)
  end.

(** [np.random.normal(loc=0.0, scale=1.0, size=(rows, cols))] *)
Definition np_random_normal {G St : Type} `{RandomState G} (rows cols : Z)
  : py (pyworld G St) (list (list float)) :=
  fun w =>
    if (rows <? 0) || (cols <? 0) then (Raise ValueError, w)
    else let (a, g) := normal_rows (Z.to_nat rows) (replicate (Z.to_nat cols) 0%float)
                         1%float (np_random w) in
         (Return a, set_np_random g w).

(** The module-level state the experiments work on: what a method can
    reach, the matrix [arm_means], the two size globals, and the log. *)
Record lab (G St : Type) : Type := Lab {
  lab_ctx : pyworld G St;
  arm_means : list (list float);
  num_mab_problems : Z;
  time_steps_per_problem : Z;
  lab_calls : list event
}.
Arguments Lab {G St} lab_ctx arm_means num_mab_problems time_steps_per_problem lab_calls.
Arguments lab_ctx {G St} _.
Arguments arm_means {G St} _.
Arguments num_mab_problems {G St} _.
Arguments time_steps_per_problem {G St} _.
Arguments lab_calls {G St} _.

Section Experiments.
Context {G St : Type} `{RandomState G} `{Algorithm G St}.

(** The cell that creates the problems, with its four literals (2077, 10,
    200 and 1000 in the notebook) as parameters: seed the generator, set
    [k], [num_mab_problems] and [time_steps_per_problem], then draw
    [arm_means]. *)
Definition make_problems (x kk problems steps : Z) : py (lab G St) unit :=
  fun L =>
    match np_random_seed x (lab_ctx L) with
    | (Return _, w1) =>
        match np_random_normal problems kk (World (self w1) (np_random w1) kk) with
        | (Return a, w2) => (Return tt, Lab w2 a problems steps (lab_calls L))
        | (Raise e, w2) => (Raise e, Lab w2 (arm_means L) problems steps (lab_calls L))
        end
    | (Raise e, w1) =>
        (Raise e, Lab w1 (arm_means L) (num_mab_problems L) (time_steps_per_problem L)
                    (lab_calls L))
    end.

(** [run_simulation(algorithm=algorithm, true_arm_means=arm_means[problem, :],
    n=time_steps_per_problem)].  The row is a view of [arm_means]: what the
    run leaves in it is what the matrix holds afterwards. *)
Definition run_on_problem (problem : Z) : py (lab G St) (list float) :=
  fun L =>
    match normalize_index (length (arm_means L)) problem with
    | Return j =>
        match arm_means L !! j with
        | Some row =>
            let (o, s') :=
              run_simulation (time_steps_per_problem L) (Store (lab_ctx L) row (lab_calls L)) in
            (o, Lab (ctx s') (<[j := true_arm_means s']> (arm_means L))
                  (num_mab_problems L) (time_steps_per_problem L) (calls s'))
        | None => (Raise IndexError, L)
        end
    | Raise e => (Raise e, L)
    end.

(** The loop over the problems in [create_eval_plots_for_algs], for the
    problems still to come. *)
Fixpoint problems_loop (problems : list Z) (rewards_matrix : list (list float))
  : py (lab G St) (list (list float)) :=
  match problems with
  | [] => ret rewards_matrix
  | problem :: problems' =>
      trace <- run_on_problem problem ;;
      rewards_matrix' <- of_outcome (np_setrow rewards_matrix problem trace) ;;
      problems_loop problems' rewards_matrix'
  end.

(** What [create_eval_plots_for_algs] computes for one [algorithm] before
    it plots: the matrix of rewards, one row per problem. *)
Definition rewards_for_algorithm : py (lab G St) (list (list float)) :=
  fun L =>
    (rewards_matrix <-
       of_outcome (np_zeros2 (num_mab_problems L) (time_steps_per_problem L)) ;;
     problems_loop (range (num_mab_problems L)) rewards_matrix) L.

End Experiments.

(** The loop of the first experiment: as above, but each run gets a new
    [RandomAlg()]. *)
Fixpoint first_experiment_loop {G : Type} `{RandomState G} (problems : list Z)
  (rewards_matrix : list (list float)) : py (lab G RandomAlg.t) (list (list float)) :=
  match problems with
  | [] => ret rewards_matrix
  | problem :: problems' =>
      algorithm <- of_outcome RandomAlg.__init__ ;;
      trace <- (fun L => run_on_problem problem
                  (Lab (World algorithm (np_random (lab_ctx L)) (k (lab_ctx L)))
                     (arm_means L) (num_mab_problems L) (time_steps_per_problem L)
                     (lab_calls L))) ;;
      rewards_matrix' <- of_outcome (np_setrow rewards_matrix problem trace) ;;
      first_experiment_loop problems' rewards_matrix'
  end.

Definition first_experiment {G : Type} `{RandomState G}
  : py (lab G RandomAlg.t) (list (list float)) :=
  fun L =>
    (rewards_matrix <-
       of_outcome (np_zeros2 (num_mab_problems L) (time_steps_per_problem L)) ;;
     first_experiment_loop (range (num_mab_problems L)) rewards_matrix) L.

(** What [n] steps of [RandomAlg] draw, written as a plain recursion on the
    generator: an arm from [randint(0, kk)], then a reward around the mean
    of that arm. *)
Fixpoint random_rollout {G : Type} `{RandomState G} (n : nat) (kk : Z) (means : list float)
  (g : G) : list float * G :=
  match n with
  | O => ([], g)
  | S n' =>
      let (a, g1) := randint_draw 0 kk g in
      let (x, g2) := normal_draw (default 0%float (means !! Z.to_nat a)) 1%float g1 in
      let (xs, g3) := random_rollout n' kk means g2 in
      (x :: xs, g3)
  end.

(** A strategy class as the notebook leaves it to the reader: [reset] and
    [observe_reward] return at once, [choose_arm] returns [None]. *)
Definition unimplemented (G St : Type) `{Algorithm G St} : Prop :=
  (forall w : pyworld G St, reset w = (Return tt, w)) /\
  (forall w : pyworld G St, choose_arm w = (Return PyNone, w)) /\
  (forall (arm : pyobj) (reward : ndval) (w : pyworld G St),
     observe_reward arm reward w = (Return tt, w)).

(** How often [reset] returned. *)
Definition resets (log : list event) : Z :=
  fold_left (fun c e => match e with EvReset => c + 1 | _ => c end) log 0.

(** [RandomAlg] on three arms while the global [k] is 0. *)
Definition zero_k_store : store Z RandomAlg.t :=
  Store (World RandomAlg.Build 2077 0) three_arms [].

(** [EpsilonGreedy(epsilon=0.5)] on three arms, [k = 3]. *)
Definition eps_store : store Z EpsilonGreedy.t :=
  Store (World (EpsilonGreedy.Build 0.5) 2077 3) three_arms [].

(** Two problems of three arms each, two time steps per problem, with
    [RandomAlg()] as the algorithm and [k = 3]. *)
Definition random_lab : lab Z RandomAlg.t :=
  Lab (World RandomAlg.Build 2077 3)
    [[0%float; 0%float; 5%float]; [1%float; 2%float; 3%float]] 2 2 [].

(** The same problems with [EpsilonGreedy(epsilon=0.5)]. *)
Definition eps_lab : lab Z EpsilonGreedy.t :=
  Lab (World (EpsilonGreedy.Build 0.5) 2077 3)
    [[0%float; 0%float; 5%float]; [1%float; 2%float; 3%float]] 2 2 [].

(** ** Reasoning about computations *)

(** [hoare P c Q]: started in a store satisfying [P], the computation [c]
    ends, with an outcome and in a store related by [Q]. *)
Definition hoare {S A : Type} (P : S -> Prop) (c : py S A) (Q : outcome A -> S -> Prop)
  : Prop :=
  forall s, P s -> Q (fst (c s)) (snd (c s)).

(** [relog l r]: the result [r] of a computation, with [l] put in front of
    its log. *)
Definition relog {G St A : Type} (l : list event) (r : outcome A * store G St)
  : outcome A * store G St :=
  (fst r, Store (ctx (snd r)) (true_arm_means (snd r)) (l ++ calls (snd r))).

(** A computation that only ever appends to the log and never reads it. *)
Definition log_oblivious {G St A : Type} (c : py (store G St) A) : Prop :=
  forall w means l, c (Store w means l) = relog l (c (Store w means [])).

Lemma bind_Return {S A B : Type} (c : py S A) (f : A -> py S B) (s s' : S) (a : A) :
  c s = (Return a, s') -> bind c f s = f a s'.
Proof. intros E. unfold bind. now rewrite E. Qed.

Lemma bind_Raise {S A B : Type} (c : py S A) (f : A -> py S B) (s s' : S) (e : exn) :
  c s = (Raise e, s') -> bind c f s = (Raise e, s').
Proof. intros E. unfold bind. now rewrite E. Qed.

Lemma hoare_bind {S A B : Type} (P : S -> Prop) (c : py S A) (Q : outcome A -> S -> Prop)
  (f : A -> py S B) (Q' : outcome B -> S -> Prop) :
  hoare P c Q ->
  (forall a, hoare (Q (Return a)) (f a) Q') ->
  (forall e s, Q (Raise e) s -> Q' (Raise e) s) ->
  hoare P (bind c f) Q'.
Proof.
  intros Hc Hf Hexit s Hs. specialize (Hc s Hs). unfold bind.
  destruct (c s) as [[a | e] s1]; cbn [fst snd] in Hc.
  - now apply Hf.
  - cbn [fst snd]. now apply Hexit.
Qed.

Section SimulatorFacts.
Context {G St : Type} `{RandomState G} `{Algorithm G St}.

Lemma logged_eq {A : Type} (c : py (pyworld G St) A) (ev : A -> event) (s : store G St) :
  logged c ev s =
  match c (ctx s) with
  | (Return a, w) => (Return a, Store w (true_arm_means s) (calls s ++ [ev a]))
  | (Raise e, w) => (Raise e, Store w (true_arm_means s) (calls s))
  end.
Proof.
  unfold logged, bind, in_ctx, emit, ret.
  destruct (c (ctx s)) as [[a | e] w]; reflexivity.
Qed.

Lemma sim_loop_cons (t : Z) (ts : list Z) (rewards : list float) :
  sim_loop (t :: ts) rewards =
  (arm <- logged choose_arm EvChoose ;;
   loc <- getitem_true_arm_means arm ;;
   reward <- logged (norm_rvs loc 1%float) (EvSample loc) ;;
   logged (observe_reward arm reward) (fun _ => EvObserve arm reward) ;;
   rewards' <- of_outcome (np_setitem rewards t reward) ;;
   emit (EvStore t reward) ;;
   sim_loop ts rewards').
Proof. reflexivity. Qed.

(** *** Invariants of a run *)

Section Stable.
Variable P : store G St -> Prop.

Hypothesis reset_stable : stable_call P reset (fun _ => EvReset).
Hypothesis choose_arm_stable : stable_call P choose_arm EvChoose.
Hypothesis norm_rvs_stable : forall loc, stable_call P (norm_rvs loc 1%float) (EvSample loc).
Hypothesis observe_reward_stable : forall arm reward,
  stable_call P (observe_reward arm reward) (fun _ => EvObserve arm reward).
Hypothesis store_stable : forall t reward s,
  P s -> P (Store (ctx s) (true_arm_means s) (calls s ++ [EvStore t reward])).

Lemma hoare_logged {A : Type} (c : py (pyworld G St) A) (ev : A -> event) :
  stable_call P c ev -> hoare P (logged c ev) (fun _ => P).
Proof.
  intros Hc s Hs. rewrite logged_eq. specialize (Hc s Hs).
  destruct (c (ctx s)) as [[a | e] w]; exact Hc.
Qed.

Lemma sim_loop_stable (ts : list Z) :
  forall rewards, hoare P (sim_loop ts rewards) (fun _ => P).
Proof.
  induction ts as [| t ts IH]; intros rewards.
  - intros s Hs. exact Hs.
  - rewrite sim_loop_cons.
    eapply hoare_bind; [apply hoare_logged, choose_arm_stable | | auto].
    intros arm.
    eapply hoare_bind with (Q := fun _ => P); [ | | auto].
    { intros s Hs. exact Hs. }
    intros loc.
    eapply hoare_bind; [apply hoare_logged, norm_rvs_stable | | auto].
    intros reward.
    eapply hoare_bind; [apply hoare_logged, observe_reward_stable | | auto].
    intros ?.
    eapply hoare_bind with (Q := fun _ => P); [ | | auto].
    { intros s Hs. exact Hs. }
    intros rewards'.
    eapply hoare_bind with (Q := fun _ => P); [ | | auto].
    { intros s Hs. now apply store_stable. }
    intros ?. apply IH.
Qed.

Lemma run_simulation_stable (n : Z) : hoare P (run_simulation n) (fun _ => P).
Proof.
  unfold run_simulation.
  eapply hoare_bind with (Q := fun _ => P); [ | | auto].
  { intros s Hs. exact Hs. }
  intros rewards.
  eapply hoare_bind; [apply hoare_logged, reset_stable | | auto].
  intros ?. apply sim_loop_stable.
Qed.

End Stable.

End SimulatorFacts.

(** ** numpy indexing *)

Lemma normalize_index_in_range (len : nat) (i : Z) :
  0 <= i < Z.of_nat len -> normalize_index len i = Return (Z.to_nat i).
Proof.
  intros Hi. unfold normalize_index.
  destruct (Z.leb_spec 0 i); [ | lia].
  destruct (Z.ltb_spec i (Z.of_nat len)); [reflexivity | lia].
Qed.

Lemma normalize_index_negative (len : nat) (i : Z) :
  - Z.of_nat len <= i < 0 ->
  normalize_index len i = Return (Z.to_nat (Z.of_nat len + i)).
Proof.
  intros Hi. unfold normalize_index.
  destruct (Z.leb_spec 0 i); [lia | ]. cbn [andb].
  destruct (Z.leb_spec (- Z.of_nat len) i); [ | lia].
  destruct (Z.ltb_spec i 0); [reflexivity | lia].
Qed.

Lemma normalize_index_out_of_range (len : nat) (i : Z) :
  i < - Z.of_nat len \/ Z.of_nat len <= i ->
  normalize_index len i = Raise (index_refusal i).
Proof.
  intros Hi. unfold normalize_index.
  destruct (Z.leb_spec 0 i), (Z.ltb_spec i (Z.of_nat len)),
    (Z.leb_spec (- Z.of_nat len) i), (Z.ltb_spec i 0);
    cbn [andb]; try reflexivity; lia.
Qed.

Lemma np_getitem_in_range (a : list float) (i : Z) :
  0 <= i < Z.of_nat (length a) ->
  exists x, a !! Z.to_nat i = Some x /\ np_getitem a (PyInt i) = Return (Scalar x).
Proof.
  intros Hi. unfold np_getitem. rewrite normalize_index_in_range by exact Hi.
  destruct (a !! Z.to_nat i) as [x | ] eqn:E.
  - exists x. split; reflexivity.
  - apply lookup_ge_None in E. lia.
Qed.

Lemma np_getitem_negative (a : list float) (i : Z) (x : float) :
  - Z.of_nat (length a) <= i < 0 ->
  a !! Z.to_nat (Z.of_nat (length a) + i) = Some x ->
  np_getitem a (PyInt i) = Return (Scalar x).
Proof.
  intros Hi E. unfold np_getitem.
  rewrite normalize_index_negative by exact Hi. now rewrite E.
Qed.

Lemma np_getitem_out_of_range (a : list float) (i : Z) :
  i < - Z.of_nat (length a) \/ Z.of_nat (length a) <= i ->
  np_getitem a (PyInt i) = Raise (index_refusal i).
Proof.
  intros Hi. unfold np_getitem.
  now rewrite normalize_index_out_of_range by exact Hi.
Qed.

(** The lookups and writes the examples below rely on, evaluated. *)
Example np_getitem_examples :
  np_getitem [0%float; 5%float] (PyInt 1) = Return (Scalar 5%float) /\
  np_getitem [0%float; 5%float] (PyInt (-1)) = Return (Scalar 5%float) /\
  np_getitem [0%float; 5%float] (PyInt (-2)) = Return (Scalar 0%float) /\
  np_getitem [0%float; 5%float] (PyInt 2) = Raise IndexError /\
  np_getitem [0%float; 5%float] (PyInt (-3)) = Raise IndexError /\
  np_getitem [0%float; 5%float] (PyInt (2 ^ 63 - 1)) = Raise IndexError /\
  np_getitem [0%float; 5%float] (PyInt (2 ^ 63)) = Raise OverflowError /\
  np_getitem [0%float; 5%float] (PyInt (2 ^ 64 - 1)) = Raise OverflowError /\
  np_getitem [0%float; 5%float] (PyInt (2 ^ 64)) = Raise IndexError /\
  np_getitem [0%float; 5%float] (PyInt (- 2 ^ 63 - 1)) = Raise IndexError /\
  np_getitem [0%float; 5%float] PyNone = Return (Row [0%float; 5%float]).
Proof. repeat split. Qed.

Example np_setitem_examples :
  np_setitem [0%float; 0%float] 1 (Scalar 7%float) = Return [0%float; 7%float] /\
  np_setitem [0%float; 0%float] 0 (Row [7%float]) = Raise ValueError /\
  squeeze_left (Row [7%float]) = Scalar 7%float /\
  squeeze_left (Row [7%float; 8%float]) = Row [7%float; 8%float] /\
  squeeze_left (Row []) = Row [] /\
  np_setitem [0%float; 0%float] 0 (Row [7%float; 8%float]) = Raise ValueError /\
  np_setitem [0%float; 0%float] 2 (Scalar 7%float) = Raise IndexError /\
  np_zeros (-1) = Raise ValueError /\
  np_zeros 2 = Return [0%float; 0%float] /\
  range 3 = [0; 1; 2] /\
  range (-1) = [].
Proof. repeat split. Qed.

(** Writing the next free cell of a partly filled array. *)
Lemma np_setitem_next (done : list float) (m : nat) (v : ndval) (rewards' : list float) :
  np_setitem (done ++ replicate (S m) 0%float) (Z.of_nat (length done)) v = Return rewards' ->
  exists x, as_cell v = Return x /\ rewards' = (done ++ [x]) ++ replicate m 0%float.
Proof.
  unfold np_setitem. rewrite normalize_index_in_range
    by (rewrite length_app, length_replicate; lia).
  destruct (as_cell v) as [x | e]; [ | discriminate].
  intros E. injection E as <-. exists x. split; [reflexivity | ].
  rewrite Nat2Z.id.
  replace (length done) with (length done + 0)%nat at 1 by lia.
  rewrite insert_app_r. cbn. now rewrite <- app_assoc.
Qed.

Lemma np_setitem_scalar (rewards : list float) (t : Z) (x : float) :
  0 <= t < Z.of_nat (length rewards) ->
  exists rewards', np_setitem rewards t (Scalar x) = Return rewards' /\
                   length rewards' = length rewards.
Proof.
  intros Ht. unfold np_setitem. rewrite normalize_index_in_range by exact Ht.
  cbn [as_cell]. eexists. split; [reflexivity | apply length_insert].
Qed.

Lemma np_setitem_next_cell (done : list float) (m : nat) (v : ndval) (x : float) :
  as_cell v = Return x ->
  np_setitem (done ++ replicate (S m) 0%float) (Z.of_nat (length done)) v =
  Return ((done ++ [x]) ++ replicate m 0%float).
Proof.
  intros Ecell. unfold np_setitem.
  rewrite normalize_index_in_range by (rewrite length_app, length_replicate; lia).
  rewrite Ecell, Nat2Z.id.
  replace (length done) with (length done + 0)%nat at 1 by lia.
  rewrite insert_app_r. cbn. now rewrite <- app_assoc.
Qed.

(** ** The shape of a run that returns *)

Section Steps.
Context {G St : Type} `{RandomState G} `{Algorithm G St}.

Lemma played_step_of_run (means : list float) (steps : list step) :
  forall w w' : pyworld G St, played means w steps w' -> Forall (step_of_run means) steps.
Proof.
  induction steps as [| st steps IH]; intros w w' Hplayed; [constructor | ].
  destruct Hplayed as (w1 & w2 & w3 & _ & _ & _ & Hst & Hrest).
  constructor; [exact Hst | exact (IH _ _ Hrest)].
Qed.

(** A loop that returns made the calls of its steps, in order, and its
    final state is the one the last call left. *)
Lemma sim_loop_played (m : nat) :
  forall (t0 : Z) (done : list float) (w : pyworld G St) (means : list float)
         (log : list event) (trace : list float) (s' : store G St),
    t0 = Z.of_nat (length done) ->
    sim_loop (seqZ t0 (Z.of_nat m)) (done ++ replicate m 0%float) (Store w means log) =
      (Return trace, s') ->
    exists steps : list step,
      trace = done ++ map s_cell steps /\
      length steps = m /\
      played means w steps (ctx s') /\
      true_arm_means s' = means /\
      calls s' = log ++ run_events t0 steps.
Proof.
  induction m as [| m IH]; intros t0 done w means log trace s' Ht0 E.
  - cbn in E. injection E as <- <-. exists []. cbn. rewrite !app_nil_r. auto.
  - rewrite seqZ_cons in E by lia.
    replace (Z.pred (Z.of_nat (S m))) with (Z.of_nat m) in E by lia.
    rewrite sim_loop_cons in E. unfold bind in E.
    rewrite logged_eq in E. cbn [ctx true_arm_means calls] in E.
    destruct (choose_arm w) as [[arm | e] w1] eqn:Echoose; [ | discriminate E].
    unfold getitem_true_arm_means in E. cbn [true_arm_means] in E.
    destruct (np_getitem means arm) as [loc | e] eqn:Eloc; [ | discriminate E].
    rewrite logged_eq in E. cbn [ctx true_arm_means calls] in E.
    destruct (norm_rvs loc 1%float w1) as [[reward | e] w2] eqn:Edraw; [ | discriminate E].
    rewrite logged_eq in E. cbn [ctx true_arm_means calls] in E.
    destruct (observe_reward arm reward w2) as [[[] | e] w3] eqn:Eobserve;
      [ | discriminate E].
    unfold of_outcome in E. subst t0.
    destruct (np_setitem _ _ reward) as [rewards' | e] eqn:Eset; [ | discriminate E].
    destruct (np_setitem_next _ _ _ _ Eset) as (x & Ecell & ->).
    cbn [emit ctx true_arm_means calls] in E.
    apply IH in E; [ | rewrite length_app; cbn; lia].
    destruct E as (steps & -> & Hlen & Hplayed & Hmeans & Hcalls).
    exists (Step arm loc reward x :: steps).
    split; [cbn; now rewrite <- app_assoc | ].
    split; [cbn; now rewrite Hlen | ].
    split.
    { exists w1, w2, w3. cbn [s_arm s_loc s_reward].
      repeat split; assumption. }
    split; [exact Hmeans | ].
    rewrite Hcalls. cbn [run_events step_events s_arm s_loc s_reward].
    rewrite <- !app_assoc. cbn [app].
    replace (Z.succ (Z.of_nat (length done))) with (Z.of_nat (length done) + 1) by lia.
    reflexivity.
Qed.

Lemma sim_loop_returns (m : nat) :
  forall (t0 : Z) (done : list float) (w : pyworld G St) (means : list float)
         (log : list event) (trace : list float) (s' : store G St),
    t0 = Z.of_nat (length done) ->
    sim_loop (seqZ t0 (Z.of_nat m)) (done ++ replicate m 0%float) (Store w means log) =
      (Return trace, s') ->
    exists steps : list step,
      trace = done ++ map s_cell steps /\
      length steps = m /\
      Forall (step_of_run means) steps /\
      true_arm_means s' = means /\
      calls s' = log ++ run_events t0 steps.
Proof.
  intros t0 done w means log trace s' Ht0 E.
  destruct (sim_loop_played m t0 done w means log trace s' Ht0 E)
    as (steps & Htrace & Hlen & Hplayed & Hmeans & Hcalls).
  exists steps. repeat split; try assumption.
  exact (played_step_of_run _ _ _ _ Hplayed).
Qed.

(** Conversely, when the calls of the steps return one after the other,
    the loop makes exactly these calls and returns their rewards. *)
Lemma sim_loop_replays (steps : list step) :
  forall (t0 : Z) (done : list float) (w w' : pyworld G St) (means : list float)
         (log : list event),
    t0 = Z.of_nat (length done) ->
    played means w steps w' ->
    sim_loop (seqZ t0 (Z.of_nat (length steps))) (done ++ replicate (length steps) 0%float)
      (Store w means log) =
      (Return (done ++ map s_cell steps), Store w' means (log ++ run_events t0 steps)).
Proof.
  induction steps as [| st steps IH]; intros t0 done w w' means log Ht0 Hplayed.
  - cbn in Hplayed. subst w'. cbn. now rewrite !app_nil_r.
  - destruct Hplayed as (w1 & w2 & w3 & Echoose & Edraw & Eobserve & [Eloc Ecell] & Hrest).
    cbn [length]. rewrite seqZ_cons by lia.
    replace (Z.pred (Z.of_nat (S (length steps)))) with (Z.of_nat (length steps)) by lia.
    rewrite sim_loop_cons.
    erewrite bind_Return by (rewrite logged_eq; cbn [ctx]; rewrite Echoose; reflexivity).
    erewrite bind_Return by (unfold getitem_true_arm_means; cbn [true_arm_means];
                             rewrite Eloc; reflexivity).
    erewrite bind_Return by (rewrite logged_eq; cbn [ctx]; rewrite Edraw; reflexivity).
    erewrite bind_Return by (rewrite logged_eq; cbn [ctx]; rewrite Eobserve; reflexivity).
    subst t0.
    erewrite bind_Return
      by (unfold of_outcome; rewrite (np_setitem_next_cell _ _ _ _ Ecell); reflexivity).
    erewrite bind_Return by reflexivity.
    cbn [ctx true_arm_means calls].
    rewrite (IH (Z.succ (Z.of_nat (length done))) (done ++ [s_cell st]) w3 w' means)
      by (try exact Hrest; rewrite length_app; cbn; lia).
    cbn [map run_events step_events]. rewrite <- !app_assoc. cbn [app].
    replace (Z.succ (Z.of_nat (length done))) with (Z.of_nat (length done) + 1) by lia.
    reflexivity.
Qed.

(** A run that returns: one [reset], then the calls of [n] steps. *)
Lemma run_simulation_played (n : Z) (s : store G St) (trace : list float) (s' : store G St) :
  0 <= n -> run_simulation n s = (Return trace, s') ->
  exists (steps : list step) (w1 : pyworld G St),
    reset (ctx s) = (Return tt, w1) /\
    played (true_arm_means s) w1 steps (ctx s') /\
    Z.of_nat (length steps) = n /\
    trace = map s_cell steps /\
    true_arm_means s' = true_arm_means s /\
    calls s' = calls s ++ EvReset :: run_events 0 steps.
Proof.
  intros Hn E. destruct s as [w means log]. cbn [ctx true_arm_means calls].
  unfold run_simulation, np_zeros in E.
  destruct (Z.ltb_spec n 0); [lia | ].
  unfold bind in E. cbn [of_outcome] in E.
  rewrite logged_eq in E. cbn [ctx true_arm_means calls] in E.
  destruct (reset w) as [[[] | e] w1]; [ | discriminate E].
  unfold range in E. rewrite <- (Z2Nat.id n) in E at 1 by exact Hn.
  apply (sim_loop_played (Z.to_nat n) 0 []) in E; [ | reflexivity].
  destruct E as (steps & -> & Hlen & Hplayed & Hmeans & Hcalls).
  exists steps, w1. cbn [app]. repeat split; try assumption; [lia | ].
  rewrite Hcalls. now rewrite <- app_assoc.
Qed.

(** And one [reset] followed by the calls of [n] steps is a run. *)
Lemma run_simulation_replays (s : store G St) (steps : list step) (w1 w' : pyworld G St) :
  reset (ctx s) = (Return tt, w1) ->
  played (true_arm_means s) w1 steps w' ->
  run_simulation (Z.of_nat (length steps)) s =
    (Return (map s_cell steps),
     Store w' (true_arm_means s) (calls s ++ EvReset :: run_events 0 steps)).
Proof.
  intros Ereset Hplayed. destruct s as [w means log].
  cbn [ctx true_arm_means calls] in *.
  unfold run_simulation, np_zeros. destruct (Z.ltb_spec (Z.of_nat (length steps)) 0); [lia | ].
  erewrite bind_Return by reflexivity.
  erewrite bind_Return by (rewrite logged_eq; cbn [ctx]; rewrite Ereset; reflexivity).
  cbn [ctx true_arm_means calls]. unfold range. rewrite Nat2Z.id.
  pose proof (sim_loop_replays steps 0 [] w1 w' means (log ++ [EvReset]) eq_refl Hplayed)
    as E.
  cbn [app] in E. rewrite E. now rewrite <- app_assoc.
Qed.

Variables Pre Inv : pyworld G St -> Prop.
Variable means : list float.
Hypothesis contract : honours_contract Pre Inv means.

Lemma sim_loop_contract (m : nat) :
  forall (t0 : Z) (rewards : list float) (w : pyworld G St) (log : list event),
    Inv w -> 0 <= t0 -> Z.of_nat (length rewards) = t0 + Z.of_nat m ->
    exists (trace : list float) (s' : store G St),
      sim_loop (seqZ t0 (Z.of_nat m)) rewards (Store w means log) = (Return trace, s').
Proof.
  destruct contract as (_ & Hchoose & Hobserve & Hdraw).
  induction m as [| m IH]; intros t0 rewards w log Hw Ht0 Hlen.
  - eexists _, _. reflexivity.
  - rewrite seqZ_cons by lia.
    replace (Z.pred (Z.of_nat (S m))) with (Z.of_nat m) by lia.
    rewrite sim_loop_cons.
    destruct (Hchoose w Hw) as (a & w1 & Echoose & Ha & Hw1).
    erewrite bind_Return by (rewrite logged_eq; cbn [ctx]; rewrite Echoose; reflexivity).
    destruct (np_getitem_in_range means a Ha) as (loc & Eloc & Eget).
    erewrite bind_Return by (unfold getitem_true_arm_means; cbn [true_arm_means];
                             rewrite Eget; reflexivity).
    destruct (normal_draw loc 1%float (np_random w1)) as [x g] eqn:Edraw.
    erewrite bind_Return
      by (rewrite logged_eq; cbn [ctx norm_rvs squeeze_left]; rewrite Edraw; reflexivity).
    destruct (Hobserve a x (set_np_random g w1) (Hdraw g w1 Hw1) Ha)
      as (w2 & Eobserve & Hw2).
    erewrite bind_Return by (rewrite logged_eq; cbn [ctx]; rewrite Eobserve; reflexivity).
    destruct (np_setitem_scalar rewards t0 x) as (rewards' & Eset & Hlen'); [lia | ].
    erewrite bind_Return by (unfold of_outcome; rewrite Eset; reflexivity).
    erewrite bind_Return by reflexivity.
    cbn [ctx true_arm_means calls].
    apply IH; [exact Hw2 | lia | lia].
Qed.

(** A run of a strategy that keeps the interface's promises returns. *)
Lemma run_simulation_returns (n : Z) (s : store G St) :
  0 <= n -> true_arm_means s = means -> Pre (ctx s) ->
  exists (trace : list float) (s' : store G St), run_simulation n s = (Return trace, s').
Proof.
  intros Hn Hmeans Hpre. destruct s as [w means' log].
  cbn [ctx true_arm_means calls] in *. subst means'.
  destruct contract as (Hreset & _).
  destruct (Hreset w Hpre) as (w1 & Ereset & Hw1).
  unfold run_simulation, np_zeros. destruct (Z.ltb_spec n 0); [lia | ].
  erewrite bind_Return by reflexivity.
  erewrite bind_Return by (rewrite logged_eq; cbn [ctx]; rewrite Ereset; reflexivity).
  cbn [ctx true_arm_means calls]. unfold range.
  destruct (sim_loop_contract (Z.to_nat n) 0
              (replicate (Z.to_nat n) 0%float) w1 (log ++ [EvReset]) Hw1)
    as (trace & s' & E); [lia | rewrite length_replicate; lia | ].
  rewrite Z2Nat.id in E by exact Hn. exists trace, s'. exact E.
Qed.

End Steps.

(** ** The log is write-only *)

Section LogOblivious.
Context {G St : Type} `{RandomState G} `{Algorithm G St}.

Lemma relog_relog {A : Type} (l l' : list event) (r : outcome A * store G St) :
  relog l (relog l' r) = relog (l ++ l') r.
Proof. unfold relog. cbn. now rewrite app_assoc. Qed.

Lemma log_oblivious_bind {A B : Type} (c : py (store G St) A) (f : A -> py (store G St) B) :
  log_oblivious c -> (forall a, log_oblivious (f a)) -> log_oblivious (bind c f).
Proof.
  intros Hc Hf w means l. unfold bind. rewrite (Hc w means l).
  destruct (c (Store w means [])) as [[a | e] [w1 means1 l1]]; cbn [relog fst snd ctx
    true_arm_means calls].
  - rewrite (Hf a w1 means1 (l ++ l1)), (Hf a w1 means1 l1). now rewrite relog_relog.
  - reflexivity.
Qed.

Lemma log_oblivious_ret {A : Type} (a : A) : log_oblivious (G := G) (St := St) (ret a).
Proof. intros w means l. unfold relog, ret. cbn. now rewrite app_nil_r. Qed.

Lemma log_oblivious_of_outcome {A : Type} (o : outcome A) :
  log_oblivious (G := G) (St := St) (of_outcome o).
Proof. intros w means l. unfold relog, of_outcome. cbn. now rewrite app_nil_r. Qed.

Lemma log_oblivious_emit (e : event) : log_oblivious (G := G) (St := St) (emit e).
Proof. intros w means l. reflexivity. Qed.

Lemma log_oblivious_in_ctx {A : Type} (c : py (pyworld G St) A) : log_oblivious (in_ctx c).
Proof.
  intros w means l. unfold relog, in_ctx. cbn.
  destruct (c w) as [o w1]. cbn. now rewrite app_nil_r.
Qed.

Lemma log_oblivious_getitem (arm : pyobj) :
  log_oblivious (G := G) (St := St) (getitem_true_arm_means arm).
Proof.
  intros w means l. unfold relog, getitem_true_arm_means. cbn. now rewrite app_nil_r.
Qed.

End LogOblivious.

Create HintDb oblivious.
#[export] Hint Resolve log_oblivious_ret log_oblivious_of_outcome
  log_oblivious_emit log_oblivious_in_ctx log_oblivious_getitem : oblivious.

Section LogObliviousRun.
Context {G St : Type} `{RandomState G} `{Algorithm G St}.

Lemma log_oblivious_logged {A : Type} (c : py (pyworld G St) A) (ev : A -> event) :
  log_oblivious (logged c ev).
Proof.
  unfold logged. apply log_oblivious_bind; [apply log_oblivious_in_ctx | intros a].
  apply log_oblivious_bind; [apply log_oblivious_emit | intros ?].
  apply log_oblivious_ret.
Qed.

Lemma log_oblivious_sim_loop (ts : list Z) : forall rewards, log_oblivious (sim_loop ts rewards).
Proof.
  induction ts as [| t ts IH]; intros rewards.
  - apply log_oblivious_ret.
  - rewrite sim_loop_cons.
    repeat (apply log_oblivious_bind; [ | intros ?]);
      auto using log_oblivious_logged with oblivious.
Qed.

Lemma log_oblivious_run_simulation (n : Z) : log_oblivious (run_simulation n).
Proof.
  unfold run_simulation.
  repeat (apply log_oblivious_bind; [ | intros ?]);
    auto using log_oblivious_logged, log_oblivious_sim_loop with oblivious.
Qed.

(** What a run returns does not depend on the log it starts with. *)
Lemma run_simulation_any_log (n : Z) (w : pyworld G St) (means : list float)
  (l1 l2 : list event) :
  fst (run_simulation n (Store w means l1)) = fst (run_simulation n (Store w means l2)).
Proof.
  rewrite (log_oblivious_run_simulation n w means l1).
  rewrite (log_oblivious_run_simulation n w means l2). reflexivity.
Qed.

(** A run sees the strategy only after [reset]: two stores with the same
    problem instance that [reset] brings to the same state give the same
    outcome. *)
Lemma runs_agree_after_reset (n : Z) (s1 s2 : store G St) :
  true_arm_means s1 = true_arm_means s2 ->
  reset (ctx s1) = reset (ctx s2) ->
  fst (run_simulation n s1) = fst (run_simulation n s2).
Proof.
  intros Hmeans Hreset.
  destruct s1 as [w1 means log1], s2 as [w2 means2 log2].
  cbn [ctx true_arm_means] in *. subst means2.
  unfold run_simulation, bind, of_outcome.
  destruct (np_zeros n) as [rewards | e]; [ | reflexivity].
  rewrite !logged_eq. cbn [ctx true_arm_means calls]. rewrite Hreset.
  destruct (reset w2) as [[[] | e] w]; [ | reflexivity].
  rewrite (log_oblivious_sim_loop (range n) rewards w means (log1 ++ [EvReset])).
  rewrite (log_oblivious_sim_loop (range n) rewards w means (log2 ++ [EvReset])).
  reflexivity.
Qed.

End LogObliviousRun.

(** ** RandomAlg *)

Section RandomAlgFacts.
Context {G : Type} `{RandomState G}.

Lemma RandomAlg_choose_arm_eq (w : pyworld G RandomAlg.t) :
  0 < k w <= int64_bound ->
  RandomAlg.choose_arm w =
  (Return (PyInt (fst (randint_draw 0 (k w) (np_random w)))),
   set_np_random (snd (randint_draw 0 (k w) (np_random w))) w).
Proof.
  intros Hk. unfold RandomAlg.choose_arm, bind, np_random_randint, ret.
  destruct (Z.leb_spec (k w) 0); [lia | ].
  destruct (Z.ltb_spec 0 (- int64_bound)); [unfold int64_bound in *; lia | ].
  destruct (Z.ltb_spec int64_bound (k w)); [lia | ].
  cbn [orb]. destruct (randint_draw 0 (k w) (np_random w)) as [v g]. reflexivity.
Qed.

Lemma RandomAlg_choose_arm_raises (w : pyworld G RandomAlg.t) :
  k w <= 0 \/ int64_bound < k w ->
  RandomAlg.choose_arm w = (Raise ValueError, w).
Proof.
  intros Hk. unfold RandomAlg.choose_arm, bind, np_random_randint, ret.
  destruct (Z.leb_spec (k w) 0); [reflexivity | ].
  destruct (Z.ltb_spec 0 (- int64_bound)); [reflexivity | ].
  destruct (Z.ltb_spec int64_bound (k w)); [reflexivity | lia].
Qed.

Lemma RandomAlg_observe_all (history : list (pyobj * ndval)) (w : pyworld G RandomAlg.t) :
  observe_all history w = (Return tt, w).
Proof.
  induction history as [| [arm reward] history IH]; [reflexivity | ].
  cbn [observe_all]. erewrite bind_Return by reflexivity. exact IH.
Qed.

Lemma RandomAlg_honours_contract (means : list float) (kk : Z) :
  0 < kk <= Z.of_nat (length means) -> kk <= int64_bound ->
  honours_contract (St := RandomAlg.t) (fun w => k w = kk) (fun w => k w = kk) means.
Proof.
  intros Hkk Hbound. repeat split.
  - intros w Hw. exists w. auto.
  - intros w Hw.
    exists (fst (randint_draw 0 (k w) (np_random w))),
           (set_np_random (snd (randint_draw 0 (k w) (np_random w))) w).
    split; [apply RandomAlg_choose_arm_eq; lia | ].
    pose proof (randint_draw_range 0 (k w) (np_random w)). cbn [set_np_random k]. lia.
  - intros a x w Hw Ha. exists w. auto.
  - intros g w Hw. exact Hw.
Qed.

End RandomAlgFacts.

(** ** A strategy that indexes by arm *)

(** [PullCounter] keeps the promises of the interface once [reset] has
    made one count per arm: [observe_reward] then finds [counts[arm]] for
    every arm of the instance. *)
Lemma PullCounter_honours_contract {G : Type} `{RandomState G} (means : list float) (kk : Z) :
  0 < Z.of_nat (length means) <= kk ->
  honours_contract (G := G) (St := PullCounter.t) (fun w => k w = kk)
    (fun w => k w = kk /\ Z.of_nat (length (PullCounter.counts (self w))) = kk) means.
Proof.
  intros Hkk. repeat split.
  - intros w Hw. cbn [reset PullCounter.algorithm]. unfold PullCounter.reset.
    eexists. split; [reflexivity | ]. cbn. rewrite length_replicate. lia.
  - intros w Hw. exists 0, w. split; [reflexivity | ]. split; [lia | exact Hw].
  - intros a x w [Hk Hlen] Ha. cbn [observe_reward PullCounter.algorithm].
    unfold PullCounter.observe_reward.
    rewrite normalize_index_in_range by lia.
    destruct (PullCounter.counts (self w) !! Z.to_nat a) as [c | ] eqn:E.
    + eexists. split; [reflexivity | ]. cbn. rewrite length_insert. auto.
    + apply lookup_ge_None in E. lia.
  - cbn. tauto.
  - cbn. tauto.
Qed.

(** ** The claims *)

(** C1. A run resets the strategy once and then makes exactly [n] steps,
    one after the other.  For every strategy, every problem instance and
    every horizon [n >= 0], [run_simulation] returns a trace exactly when
    [reset] returned on the state the run started in and, from the state
    [reset] left, the calls of [n] steps returned one after the other, each
    on the state the call before it left ([choose_arm], then the draw of a
    reward with the mean looked up for the returned arm, then
    [observe_reward] with that arm and that reward, then the reward written
    at position [t]).  The trace is then the list of these [n] rewards in
    time order, the strategy and the generator are in the state the last
    call left, the instance is untouched, and the log is one [EvReset]
    followed by the four events of each step, for [t = 0 .. n-1].  And
    [run_simulation] does return for every strategy that keeps the
    interface's promises: [reset] returns, [choose_arm] answers with an arm
    of the instance, and [observe_reward] returns on such an arm and a
    float. *)
Theorem run_simulation_steps {G St : Type} `{RandomState G} `{Algorithm G St}
  (Pre Inv : pyworld G St -> Prop) (n : Z) (s : store G St) :
  0 <= n ->
  (forall (trace : list float) (s' : store G St),
     run_simulation n s = (Return trace, s') <->
     exists (steps : list step) (w1 : pyworld G St),
       reset (ctx s) = (Return tt, w1) /\
       played (true_arm_means s) w1 steps (ctx s') /\
       Z.of_nat (length steps) = n /\
       trace = map s_cell steps /\
       Z.of_nat (length trace) = n /\
       true_arm_means s' = true_arm_means s /\
       calls s' = calls s ++ EvReset :: run_events 0 steps) /\
  (honours_contract Pre Inv (true_arm_means s) -> Pre (ctx s) ->
   exists (trace : list float) (s' : store G St),
     run_simulation n s = (Return trace, s')).
Proof.
  intros Hn. split.
  - intros trace s'. split.
    + intros E.
      destruct (run_simulation_played n s trace s' Hn E)
        as (steps & w1 & Ereset & Hplayed & Hlen & Htrace & Hmeans & Hcalls).
      exists steps, w1. repeat split; try assumption.
      rewrite Htrace, length_map. exact Hlen.
    + intros (steps & w1 & Ereset & Hplayed & Hlen & Htrace & _ & Hmeans & Hcalls).
      rewrite <- Hlen, Htrace, (run_simulation_replays s steps w1 (ctx s') Ereset Hplayed).
      destruct s' as [w' means' log']. cbn [ctx true_arm_means calls] in *.
      now rewrite Hmeans, Hcalls.
  - intros Hcontract Hpre.
    exact (run_simulation_returns Pre Inv (true_arm_means s) Hcontract n s Hn eq_refl Hpre).
Qed.

Lemma run_simulation_steps_witness :
  0 <= 4 /\
  honours_contract (fun w : pyworld Z PullCounter.t => k w = 2)
    (fun w => k w = 2 /\ Z.of_nat (length (PullCounter.counts (self w))) = 2)
    (true_arm_means counter_store) /\
  k (ctx counter_store) = 2 /\
  exists (trace : list float) (s' : store Z PullCounter.t)
         (steps : list step) (w1 : pyworld Z PullCounter.t),
    run_simulation 4 counter_store = (Return trace, s') /\
    reset (ctx counter_store) = (Return tt, w1) /\
    played (true_arm_means counter_store) w1 steps (ctx s') /\
    Z.of_nat (length steps) = 4 /\
    trace = map s_cell steps /\
    Z.of_nat (length trace) = 4 /\
    true_arm_means s' = true_arm_means counter_store /\
    calls s' = calls counter_store ++ EvReset :: run_events 0 steps.
Proof.
  assert (Hc : honours_contract (fun w : pyworld Z PullCounter.t => k w = 2)
                 (fun w => k w = 2 /\ Z.of_nat (length (PullCounter.counts (self w))) = 2)
                 (true_arm_means counter_store)).
  { apply PullCounter_honours_contract; cbn; lia. }
  split; [lia | split; [exact Hc | split; [reflexivity | ]]].
  destruct (run_simulation_steps (fun w : pyworld Z PullCounter.t => k w = 2)
              (fun w => k w = 2 /\ Z.of_nat (length (PullCounter.counts (self w))) = 2)
              4 counter_store) as [Hshape Hreturns]; [lia | ].
  destruct (Hreturns Hc eq_refl) as (trace & s' & E).
  destruct (proj1 (Hshape trace s') E) as (steps & w1 & Hrest).
  exists trace, s', steps, w1. split; [exact E | exact Hrest].
Defined.

(** *** What follows a choice that numpy cannot index with *)

Lemma np_getitem_not_out_of_range (a : list float) (i : Z) :
  ~ out_of_range (length a) i -> exists x, np_getitem a (PyInt i) = Return (Scalar x).
Proof.
  intros Hi. unfold out_of_range in Hi.
  destruct (Z.lt_ge_cases i 0) as [Hneg | Hpos].
  - destruct (a !! Z.to_nat (Z.of_nat (length a) + i)) as [x | ] eqn:E.
    + exists x. apply np_getitem_negative; [lia | exact E].
    + apply lookup_ge_None in E. lia.
  - destruct (np_getitem_in_range a i) as (x & _ & E); [lia | ]. now exists x.
Qed.

Lemma bad_choice_is_last (len : nat) (pre pre' post : list event) (x y : event) :
  pre ++ [y] = pre' ++ x :: post ->
  Forall (fun e => ~ bad_choice len e) pre -> bad_choice len x ->
  post = [] /\ x = y.
Proof.
  intros E Hpre Hx. destruct post as [| z post] using rev_ind.
  - apply app_inj_tail in E. destruct E as [_ ->]. auto.
  - clear IHpost. rewrite app_comm_cons, app_assoc in E.
    apply app_inj_tail in E. destruct E as [-> _].
    rewrite Forall_app, Forall_cons in Hpre. tauto.
Qed.

Section BadChoice.
Context {G St : Type} `{RandomState G} `{Algorithm G St}.
Variable log0 : list event.
Variable means : list float.

Lemma no_bad_choice_snoc (w w' : pyworld G St) (l : list event) (e : event) :
  no_bad_choice log0 means (Store w means l) -> ~ bad_choice (length means) e ->
  no_bad_choice log0 means (Store w' means (l ++ [e])).
Proof.
  intros (_ & new & Hl & Hnew) He. cbn [calls] in Hl. subst l.
  split; [reflexivity | ]. exists (new ++ [e]). cbn [calls].
  split; [now rewrite app_assoc | ].
  apply Forall_app. split; [exact Hnew | ]. constructor; [exact He | constructor].
Qed.

Lemma no_bad_choice_stable {A : Type} (c : py (pyworld G St) A) (ev : A -> event) :
  (forall a, ~ bad_choice (length means) (ev a)) -> stable_call (no_bad_choice log0 means) c ev.
Proof.
  intros Hev [w m l] Hs. cbn [ctx true_arm_means calls].
  assert (m = means) as -> by apply Hs.
  destruct (c w) as [[a | e] w'].
  - eapply no_bad_choice_snoc; [exact Hs | apply Hev].
  - destruct Hs as (_ & new & Hl & Hnew). split; [reflexivity | ]. now exists new.
Qed.

Lemma sim_loop_bad_choice (ts : list Z) :
  forall rewards,
    hoare (no_bad_choice log0 means) (sim_loop ts rewards)
      (no_bad_choice_or_raised log0 means).
Proof.
  induction ts as [| t ts IH]; intros rewards.
  - intros s Hs. left. exact Hs.
  - rewrite sim_loop_cons.
    apply hoare_bind with
      (Q := fun o s => match o with
                       | Return (PyInt a) =>
                           (~ out_of_range (length means) a /\ no_bad_choice log0 means s) \/
                           (out_of_range (length means) a /\
                            ends_with_bad_choice log0 means a s)
                       | _ => no_bad_choice log0 means s
                       end).
    { intros [w m l] Hs. rewrite logged_eq. cbn [ctx true_arm_means calls].
      assert (m = means) as -> by apply Hs.
      destruct (choose_arm w) as [[[a | ] | e] w'] eqn:E; cbn [fst snd].
      - destruct (Z.lt_ge_cases a (- Z.of_nat (length means))) as [Hlow | Hlow];
          [right | destruct (Z.lt_ge_cases a (Z.of_nat (length means))) as [Hhigh | Hhigh];
                   [left | right]].
        + destruct Hs as (_ & new & Hl & Hnew). cbn [calls] in Hl. subst l.
          split; [left; exact Hlow | ]. split; [reflexivity | ].
          exists new. cbn [calls]. rewrite <- app_assoc.
          split; [reflexivity | ]. split; [exact Hnew | left; exact Hlow].
        + split; [unfold out_of_range; lia | ].
          eapply no_bad_choice_snoc; [exact Hs | ]. cbn. unfold out_of_range. lia.
        + destruct Hs as (_ & new & Hl & Hnew). cbn [calls] in Hl. subst l.
          split; [right; exact Hhigh | ]. split; [reflexivity | ].
          exists new. cbn [calls]. rewrite <- app_assoc.
          split; [reflexivity | ]. split; [exact Hnew | right; exact Hhigh].
      - eapply no_bad_choice_snoc; [exact Hs | ]. cbn. tauto.
      - destruct Hs as (_ & new & Hl & Hnew). split; [reflexivity | ]. now exists new. }
    2: { intros e s Hs. left. exact Hs. }
    intros arm.
    apply hoare_bind with
      (Q := fun o s => match o with
                       | Return _ => no_bad_choice log0 means s
                       | Raise e => no_bad_choice_or_raised log0 means (A := list float) (Raise e) s
                       end).
    { intros [w m l] Hs. unfold getitem_true_arm_means. cbn [fst snd true_arm_means].
      destruct arm as [a | ].
      - destruct Hs as [(Ha & Hs) | (Ha & Hs)].
        + assert (m = means) as -> by apply Hs.
          destruct (np_getitem_not_out_of_range means a Ha) as (x & ->). exact Hs.
        + assert (m = means) as -> by apply Hs.
          rewrite np_getitem_out_of_range by exact Ha. right. exists a. auto.
      - cbn. exact Hs. }
    2: { intros e s Hs. exact Hs. }
    intros loc.
    eapply hoare_bind;
      [apply (hoare_logged (no_bad_choice log0 means)), no_bad_choice_stable; intros a; cbn; tauto
      | | intros e s Hs; left; exact Hs].
    intros reward.
    eapply hoare_bind;
      [apply (hoare_logged (no_bad_choice log0 means)), no_bad_choice_stable; intros a; cbn; tauto
      | | intros e s Hs; left; exact Hs].
    intros ?.
    eapply hoare_bind with (Q := fun _ => no_bad_choice log0 means);
      [intros s Hs; exact Hs | | intros e s Hs; left; exact Hs].
    intros rewards'.
    eapply hoare_bind with (Q := fun _ => no_bad_choice log0 means);
      [ | intros ?; apply IH | intros e s Hs; left; exact Hs].
    intros [w m l] Hs. cbn [emit fst snd ctx true_arm_means calls].
    assert (m = means) as -> by apply Hs.
    eapply no_bad_choice_snoc; [exact Hs | cbn; tauto].
Qed.

Lemma run_simulation_bad_choice (n : Z) :
  hoare (no_bad_choice log0 means) (run_simulation n) (no_bad_choice_or_raised log0 means).
Proof.
  unfold run_simulation.
  eapply hoare_bind with (Q := fun _ => no_bad_choice log0 means);
    [intros s Hs; exact Hs | | intros e s Hs; left; exact Hs].
  intros rewards.
  eapply hoare_bind;
    [apply (hoare_logged (no_bad_choice log0 means)), no_bad_choice_stable; intros a; cbn; tauto
    | intros ?; apply sim_loop_bad_choice | intros e s Hs; left; exact Hs].
Qed.

End BadChoice.

(** C2, as the code has it.  [run_simulation] has no range check of its
    own; the only check is numpy's, in the lookup [true_arm_means[arm]].
    In every run of every strategy, when [choose_arm] has returned an
    integer [a] with [a >= len(true_arm_means)] or [a < -len(true_arm_means)],
    that choice is the last thing the run did: no reward was drawn after
    it, [observe_reward] was not called with it, nothing was written for
    it, and the run raised the exception numpy has for such an index:
    [OverflowError] when [2^63 <= a < 2^64], [IndexError] otherwise.  An
    index in [[-len, 0)] passes the lookup, which reads it as arm
    [len + a]. *)
Theorem out_of_range_arm_raises {G St : Type} `{RandomState G} `{Algorithm G St}
  (n : Z) (s : store G St) (pre post : list event) (a : Z) :
  (calls (snd (run_simulation n s)) = calls s ++ pre ++ EvChoose (PyInt a) :: post ->
   out_of_range (length (true_arm_means s)) a ->
   post = [] /\
   fst (run_simulation n s) = Raise (index_refusal a) /\
   (2 ^ 63 <= a < 2 ^ 64 -> fst (run_simulation n s) = Raise OverflowError) /\
   (a < 2 ^ 63 \/ 2 ^ 64 <= a -> fst (run_simulation n s) = Raise IndexError)) /\
  (forall x : float,
     - Z.of_nat (length (true_arm_means s)) <= a < 0 ->
     true_arm_means s !! Z.to_nat (Z.of_nat (length (true_arm_means s)) + a) = Some x ->
     np_getitem (true_arm_means s) (PyInt a) = Return (Scalar x)).
Proof.
  split; [ | intros x Ha Ex; now apply np_getitem_negative].
  intros Hcalls Ha.
  assert (Hs : no_bad_choice (calls s) (true_arm_means s) s).
  { split; [reflexivity | ]. exists []. split; [now rewrite app_nil_r | constructor]. }
  assert (Hend : post = [] /\ fst (run_simulation n s) = Raise (index_refusal a)).
  { destruct (run_simulation_bad_choice (calls s) (true_arm_means s) n s Hs)
      as [(_ & new & Hnew & Hgood) | (a' & Hraise & _ & pre' & Hlog & Hgood & Ha')].
    - rewrite Hcalls in Hnew. apply app_inv_head in Hnew. subst new.
      rewrite Forall_app, Forall_cons in Hgood. cbn in Hgood. tauto.
    - rewrite Hcalls in Hlog. apply app_inv_head in Hlog. symmetry in Hlog.
      destruct (bad_choice_is_last _ _ _ _ _ _ Hlog Hgood Ha) as [-> Echoice].
      injection Echoice as ->. auto. }
  destruct Hend as [Hpost Hraise]. rewrite Hraise.
  split; [exact Hpost | ]. split; [reflexivity | ].
  unfold index_refusal, int64_bound.
  split; intros Hrange.
  - destruct (Z.leb_spec (2 ^ 63) a), (Z.ltb_spec a (2 ^ 64)); cbn [andb]; try reflexivity; lia.
  - destruct (Z.leb_spec (2 ^ 63) a), (Z.ltb_spec a (2 ^ 64)); cbn [andb]; try reflexivity; lia.
Qed.

Lemma out_of_range_arm_raises_witness :
  calls (snd (run_simulation 3 big_store)) =
    calls big_store ++ [EvReset] ++ EvChoose (PyInt (2 ^ 63)) :: [] /\
  out_of_range (length (true_arm_means big_store)) (2 ^ 63) /\
  2 ^ 63 <= 2 ^ 63 < 2 ^ 64 /\
  fst (run_simulation 3 big_store) = Raise OverflowError.
Proof.
  assert (Hcalls : calls (snd (run_simulation 3 big_store)) =
                   calls big_store ++ [EvReset] ++ EvChoose (PyInt (2 ^ 63)) :: [])
    by reflexivity.
  assert (Hbad : out_of_range (length (true_arm_means big_store)) (2 ^ 63))
    by (right; cbn; lia).
  assert (Hbig : 2 ^ 63 <= 2 ^ 63 < 2 ^ 64) by lia.
  split; [exact Hcalls | ]. split; [exact Hbad | ]. split; [exact Hbig | ].
  destruct (out_of_range_arm_raises 3 big_store [EvReset] [] (2 ^ 63)) as [Hraise _].
  destruct (Hraise Hcalls Hbad) as (_ & _ & Hoverflow & _).
  exact (Hoverflow Hbig).
Defined.

(** The same on an index just past the array: the run stops at the choice
    with [IndexError]. *)
Example index_past_the_end_refused :
  calls (snd (run_simulation 3 two_store)) = [EvReset; EvChoose (PyInt 2)] /\
  fst (run_simulation 3 two_store) = Raise IndexError.
Proof. split; reflexivity. Qed.

(** C2 fails on the code.  A strategy that answers -1 on a two-arm instance
    returns an index outside [[0, 2)], and the run does not fail: the reward
    of arm 1 (mean 5) is drawn, handed to [observe_reward] and recorded in
    the trace. *)
Lemma negative_arm_not_rejected :
  fst (choose_arm (ctx minus_one_store)) = Return (PyInt (-1)) /\
  ~ (0 <= -1 < Z.of_nat (length (true_arm_means minus_one_store))) /\
  ~ fails (fst (run_simulation 1 minus_one_store)) /\
  fst (run_simulation 1 minus_one_store) = Return [6%float] /\
  calls (snd (run_simulation 1 minus_one_store)) =
    [ EvReset; EvChoose (PyInt (-1)); EvSample (Scalar 5%float) (Scalar 6%float);
      EvObserve (PyInt (-1)) (Scalar 6%float); EvStore 0 (Scalar 6%float) ].
Proof.
  split; [reflexivity | ]. split; [cbn; lia | ].
  split; [ | split; reflexivity].
  intros [e He]. discriminate He.
Qed.

(** C3, as the code has it.  No constructor validates its argument: for
    every value, [__init__] returns an object that stores exactly the value
    it was given.  Nothing is rejected and nothing is clamped. *)
Theorem constructors_store_argument :
  (forall m : Z,
     exists o, ExploreThenCommit.__init__ m = Return o /\ ExploreThenCommit.m o = m) /\
  (forall epsilon : float,
     exists o, EpsilonGreedy.__init__ epsilon = Return o /\ EpsilonGreedy.epsilon o = epsilon) /\
  (forall alpha : float,
     exists o, GradientBandit.__init__ alpha = Return o /\ GradientBandit.alpha o = alpha) /\
  (forall alpha : float,
     exists o, GradientBanditBaseline.__init__ alpha = Return o /\
               GradientBanditBaseline.alpha o = alpha).
Proof. repeat split; intros x; eexists; split; reflexivity. Qed.

(** C3 fails on the code: [ExploreThenCommit(m=0)], [EpsilonGreedy(epsilon=1.5)],
    [GradientBandit(alpha=-0.5)] and [GradientBanditBaseline(alpha=-0.5)] are
    all constructed. *)
Lemma invalid_hyperparameters_accepted :
  (0 <= 0 /\ ~ fails (ExploreThenCommit.__init__ 0)) /\
  (PrimFloat.ltb 1 1.5 = true /\ ~ fails (EpsilonGreedy.__init__ 1.5)) /\
  (PrimFloat.ltb (-0.5) 0 = true /\ ~ fails (GradientBandit.__init__ (-0.5))) /\
  (PrimFloat.ltb (-0.5) 0 = true /\ ~ fails (GradientBanditBaseline.__init__ (-0.5))).
Proof.
  repeat split; try reflexivity; try lia; intros [e He]; discriminate He.
Qed.

(** C4 does not hold of the code: the body of [ExploreThenCommit.choose_arm]
    is a docstring and a TODO, so every call returns [None] and changes
    nothing.  With [m = 1] on the three arms with means 0, 0 and 5 the
    first call already returns [None] instead of arm 0, and the run of ten
    steps ends in the first step with [ValueError] (an array of three
    rewards cannot be written into [rewards[0]]). *)
Theorem ExploreThenCommit_returns_none :
  (forall (G : Type) (w : pyworld G ExploreThenCommit.t),
     choose_arm w = (Return PyNone, w)) /\
  fst (run_simulation 10 etc_store) = Raise ValueError /\
  calls (snd (run_simulation 10 etc_store)) =
    [ EvReset; EvChoose PyNone;
      EvSample (Row [0%float; 0%float; 5%float]) (Row [1%float; 1%float; 6%float]);
      EvObserve PyNone (Row [1%float; 1%float; 6%float]) ].
Proof. split; [intros G w; reflexivity | split; reflexivity]. Qed.

Lemma observes_since_reset_snoc (l : list event) (e : event) :
  observes_since_reset (l ++ [e]) =
  match e with
  | EvReset => 0
  | EvObserve _ _ => observes_since_reset l + 1
  | _ => observes_since_reset l
  end.
Proof. unfold observes_since_reset. rewrite fold_left_app. reflexivity. Qed.

Lemma sumZ_replicate_0 (n : nat) : sumZ (replicate n 0) = 0.
Proof. induction n as [| n IH]; cbn; [reflexivity | exact IH]. Qed.

Lemma sumZ_insert (l : list Z) (j : nat) (c x : Z) :
  l !! j = Some c -> sumZ (<[j := x]> l) = sumZ l - c + x.
Proof.
  unfold sumZ. revert j.
  induction l as [| y l IH]; intros [| j] E; simpl in *; try discriminate.
  - injection E as ->. lia.
  - rewrite (IH j E). lia.
Qed.

Lemma PullCounter_keeps_counts {G : Type} :
  keeps_counts (G := G) (St := PullCounter.t) PullCounter.counts.
Proof.
  repeat split.
  - intros w w' E. injection E as <-. cbn. apply sumZ_replicate_0.
  - intros w e w' E. discriminate E.
  - intros w o w' E. injection E as <- <-. reflexivity.
  - intros arm reward w w' E. cbn in E. unfold PullCounter.observe_reward in E.
    destruct arm as [a | ]; [ | discriminate E].
    destruct (normalize_index _ a) as [j | e]; [ | discriminate E].
    destruct (PullCounter.counts (self w) !! j) as [c | ] eqn:Ec; [ | discriminate E].
    injection E as <-. cbn. rewrite (sumZ_insert _ _ c) by exact Ec. lia.
  - intros arm reward w e w' E. cbn in E. unfold PullCounter.observe_reward in E.
    destruct arm as [a | ]; [ | now injection E as <- <-].
    destruct (normalize_index _ a) as [j | e']; [ | now injection E as <- <-].
    destruct (PullCounter.counts (self w) !! j) as [c | ]; [discriminate E | ].
    now injection E as <- <-.
Qed.

Section Counts.
Context {G St : Type} `{RandomState G} `{Algorithm G St}.
Variable counts : St -> list Z.
Hypothesis counting : keeps_counts counts.

Lemma counts_ok_reset : stable_call (counts_ok counts) reset (fun _ => EvReset).
Proof.
  destruct counting as (Hreset & Hreset_raise & _).
  intros s Hs. unfold counts_ok in *.
  destruct (reset (ctx s)) as [[[] | e] w] eqn:E; cbn [ctx calls].
  - rewrite observes_since_reset_snoc. eapply Hreset, E.
  - now rewrite (Hreset_raise _ _ _ E).
Qed.

Lemma counts_ok_choose_arm : stable_call (counts_ok counts) choose_arm EvChoose.
Proof.
  destruct counting as (_ & _ & Hchoose & _).
  intros s Hs. unfold counts_ok in *.
  destruct (choose_arm (ctx s)) as [[arm | e] w] eqn:E; cbn [ctx calls].
  - rewrite observes_since_reset_snoc. now rewrite (Hchoose _ _ _ E).
  - now rewrite (Hchoose _ _ _ E).
Qed.

Lemma counts_ok_norm_rvs (loc : ndval) :
  stable_call (counts_ok counts) (norm_rvs loc 1%float) (EvSample loc).
Proof.
  intros s Hs. unfold counts_ok, norm_rvs in *. destruct (squeeze_left loc) as [m | ms].
  - destruct (normal_draw m 1%float (np_random (ctx s))) as [x g]. cbn [ctx calls].
    now rewrite observes_since_reset_snoc.
  - destruct (normal_draws ms 1%float (np_random (ctx s))) as [xs g]. cbn [ctx calls].
    now rewrite observes_since_reset_snoc.
Qed.

Lemma counts_ok_observe_reward (arm : pyobj) (reward : ndval) :
  stable_call (counts_ok counts) (observe_reward arm reward) (fun _ => EvObserve arm reward).
Proof.
  destruct counting as (_ & _ & _ & Hobserve & Hobserve_raise).
  intros s Hs. unfold counts_ok in *.
  destruct (observe_reward arm reward (ctx s)) as [[[] | e] w] eqn:E; cbn [ctx calls].
  - rewrite observes_since_reset_snoc, (Hobserve _ _ _ _ E). lia.
  - now rewrite (Hobserve_raise _ _ _ _ _ E).
Qed.

Lemma counts_ok_store (t : Z) (reward : ndval) (s : store G St) :
  counts_ok counts s ->
  counts_ok counts (Store (ctx s) (true_arm_means s) (calls s ++ [EvStore t reward])).
Proof. unfold counts_ok. cbn [ctx calls]. now rewrite observes_since_reset_snoc. Qed.

(** The invariant is kept by a run, however the run ends. *)
Lemma counts_ok_run_simulation (n : Z) (s : store G St) :
  counts_ok counts s -> counts_ok counts (snd (run_simulation n s)).
Proof.
  apply (run_simulation_stable (counts_ok counts));
    auto using counts_ok_reset, counts_ok_choose_arm, counts_ok_norm_rvs,
      counts_ok_observe_reward, counts_ok_store.
Qed.

(** The invariant holds from the moment [reset] has returned. *)
Lemma counts_ok_after_reset (n : Z) (s : store G St) (w' : pyworld G St) :
  0 <= n -> reset (ctx s) = (Return tt, w') ->
  counts_ok counts (snd (run_simulation n s)).
Proof.
  intros Hn Ereset. unfold run_simulation, np_zeros.
  destruct (Z.ltb_spec n 0); [lia | ].
  erewrite bind_Return by reflexivity.
  erewrite bind_Return by (rewrite logged_eq, Ereset; reflexivity).
  apply (sim_loop_stable (counts_ok counts));
    auto using counts_ok_choose_arm, counts_ok_norm_rvs,
      counts_ok_observe_reward, counts_ok_store.
  destruct counting as (Hreset & _). unfold counts_ok. cbn [ctx calls].
  rewrite observes_since_reset_snoc. eapply Hreset, Ereset.
Qed.

End Counts.

(** C5, as the code has it.  The simulator calls [reset] once per run and
    [observe_reward] once per step, so for every strategy that keeps
    per-arm pull counts ([reset] zeroes them, [observe_reward] adds one
    pull, no other call touches them) the sum of the counts equals the
    number of [observe_reward] calls since the last reset: in the store a
    run leaves once its [reset] has returned, after any number of steps,
    and the equation, once true, survives any further run, also one cut
    short by an exception.  [RandomAlg] is not such a strategy: its object
    has no attribute at all (no counts, no counter, no arm index), and a
    run leaves it as it was. *)
Theorem counts_track_observations {G St : Type} `{RandomState G} `{Algorithm G St}
  (counts : St -> list Z) (n : Z) (s : store G St) :
  (keeps_counts counts ->
   (0 <= n -> (exists w', reset (ctx s) = (Return tt, w')) ->
    counts_ok counts (snd (run_simulation n s))) /\
   (counts_ok counts s -> counts_ok counts (snd (run_simulation n s)))) /\
  (forall x y : RandomAlg.t, x = y) /\
  (forall r : store G RandomAlg.t, self (ctx (snd (run_simulation n r))) = self (ctx r)).
Proof.
  split; [ | split].
  - intros Hcounts. split.
    + intros Hn (w' & Ereset). now apply (counts_ok_after_reset counts Hcounts n s w').
    + now apply counts_ok_run_simulation.
  - intros [] []. reflexivity.
  - intros r. destruct (self (ctx (snd (run_simulation n r)))), (self (ctx r)). reflexivity.
Qed.

Lemma counts_track_observations_witness :
  keeps_counts (G := Z) PullCounter.counts /\
  0 <= 3 /\
  reset (ctx counter_store) = (Return tt, World (PullCounter.Build [0; 0]) 2077 2) /\
  PullCounter.counts (self (ctx (snd (run_simulation 3 counter_store)))) = [3; 0] /\
  counts_ok PullCounter.counts (snd (run_simulation 3 counter_store)).
Proof.
  split; [apply PullCounter_keeps_counts | ]. split; [lia | ].
  split; [reflexivity | ]. split; [reflexivity | ].
  destruct (counts_track_observations PullCounter.counts 3 counter_store) as [Hcounts _].
  destruct (Hcounts PullCounter_keeps_counts) as [Hafter _].
  apply Hafter; [lia | eexists; reflexivity].
Defined.

(** C5 fails on the code.  Whatever one reads off a [RandomAlg] object as
    its pull counts, the sum cannot follow the number of [observe_reward]
    calls: after a run of no step that number is 0, after a run of one step
    it is 1, and the object is the same in both stores. *)
Lemma RandomAlg_has_no_counts :
  observes_since_reset (calls (snd (run_simulation 0 random_store))) = 0 /\
  observes_since_reset (calls (snd (run_simulation 1 random_store))) = 1 /\
  ~ exists counts : RandomAlg.t -> list Z,
      counts_ok counts (snd (run_simulation 0 random_store)) /\
      counts_ok counts (snd (run_simulation 1 random_store)).
Proof.
  split; [reflexivity | ]. split; [reflexivity | ].
  intros (counts & H0 & H1). unfold counts_ok in H0, H1.
  change (observes_since_reset (calls (snd (run_simulation 0 random_store)))) with 0 in H0.
  change (observes_since_reset (calls (snd (run_simulation 1 random_store)))) with 1 in H1.
  destruct (self (ctx (snd (run_simulation 0 random_store)))).
  destruct (self (ctx (snd (run_simulation 1 random_store)))).
  rewrite H0 in H1. discriminate H1.
Qed.

(** C6.  With a positive global [k] (one that fits numpy's 64-bit range),
    [RandomAlg.choose_arm] always returns an index in [[0, k)], and it is
    the very value numpy's [randint(low=0, high=k)] draws from the global
    generator: the strategy object is untouched and the generator advances
    by that one draw.  The index is uniformly random: over any equally
    likely generator states, each arm of [[0, k)] is returned from one
    state in [k] exactly when numpy's [randint(0, k)], its discrete uniform
    draw, gives each value from one state in [k].  [RandomAlg] has no state
    to learn with: all its objects are equal, [observe_reward] and [reset]
    return without changing anything for every arm, reward and interpreter
    state, and after any sequence of observations [choose_arm] does what it
    does without them. *)
Theorem RandomAlg_draws_uniformly_and_learns_nothing {G : Type} `{RandomState G}
  (w : pyworld G RandomAlg.t) :
  0 < k w <= int64_bound ->
  (choose_arm w =
     (Return (PyInt (fst (randint_draw 0 (k w) (np_random w)))),
      World (self w) (snd (randint_draw 0 (k w) (np_random w))) (k w)) /\
   0 <= fst (randint_draw 0 (k w) (np_random w)) < k w) /\
  (forall gs : list G,
     chosen_uniformly (k w) (fun g => fst (choose_arm (set_np_random g w))) gs <->
     randint_uniform 0 (k w) gs) /\
  (forall x y : RandomAlg.t, x = y) /\
  (forall (arm : pyobj) (reward : ndval) (w' : pyworld G RandomAlg.t),
     observe_reward arm reward w' = (Return tt, w')) /\
  (forall w' : pyworld G RandomAlg.t, reset w' = (Return tt, w')) /\
  (forall history : list (pyobj * ndval),
     (observe_all history ;; choose_arm) w = choose_arm w).
Proof.
  intros Hk. split; [split | split; [ | split; [ | split; [ | split]]]].
  - exact (RandomAlg_choose_arm_eq w Hk).
  - apply randint_draw_range. lia.
  - intros gs.
    assert (Hsame : forall a g,
               returns_arm a (fst (choose_arm (set_np_random g w))) =
               (fst (randint_draw 0 (k w) g) =? a)).
    { intros a g. cbn [choose_arm RandomAlg.algorithm].
      rewrite RandomAlg_choose_arm_eq by exact Hk. reflexivity. }
    unfold chosen_uniformly, randint_uniform.
    split; intros Huniform a Ha; specialize (Huniform a Ha).
    + rewrite <- (List.filter_ext _ _ (Hsame a)), Z.sub_0_r. exact Huniform.
    + rewrite (List.filter_ext _ _ (Hsame a)). rewrite Z.sub_0_r in Huniform. exact Huniform.
  - intros [] []. reflexivity.
  - intros arm reward w'. reflexivity.
  - intros w'. reflexivity.
  - intros history. now rewrite (bind_Return _ _ w w tt (RandomAlg_observe_all history w)).
Qed.

Lemma RandomAlg_draws_uniformly_and_learns_nothing_witness :
  0 < k (ctx random_store) <= int64_bound /\
  randint_uniform 0 3 (seqZ 0 6) /\
  chosen_uniformly 3 (fun g => fst (choose_arm (set_np_random g (ctx random_store))))
    (seqZ 0 6) /\
  choose_arm (ctx random_store) = (Return (PyInt 2), World RandomAlg.Build 636123794 3) /\
  (observe_all [(PyNone, Row []); (PyInt 7, Scalar 1%float)] ;; choose_arm) (ctx random_store) =
    choose_arm (ctx random_store).
Proof.
  assert (Hk : 0 < k (ctx random_store) <= int64_bound) by (cbn; unfold int64_bound; lia).
  assert (Hnumpy : randint_uniform 0 3 (seqZ 0 6)).
  { intros a Ha. assert (a = 0 \/ a = 1 \/ a = 2) as [-> | [-> | ->]] by lia; reflexivity. }
  pose proof (RandomAlg_draws_uniformly_and_learns_nothing (ctx random_store) Hk)
    as ((Echoose & _) & Huniform & _ & _ & _ & Hhistory).
  split; [exact Hk | ]. split; [exact Hnumpy | ].
  split; [exact (proj2 (Huniform (seqZ 0 6)) Hnumpy) | ].
  split; [exact Echoose | apply Hhistory].
Defined.

(** The statement separates strategies: on six states over which
    [randint(0, 2)] is uniform, a strategy that always answers arm 0 does
    not choose uniformly. *)
Example constant_choice_not_uniform :
  randint_uniform 0 2 (seqZ 0 6) /\
  ~ chosen_uniformly 2 (fun g => fst (choose_arm (set_np_random g (ctx counter_store))))
      (seqZ 0 6).
Proof.
  split.
  - intros a Ha. assert (a = 0 \/ a = 1) as [-> | ->] by lia; reflexivity.
  - intros Huniform. specialize (Huniform 1 ltac:(lia)). discriminate Huniform.
Qed.

(** C7. After [np.random.seed(x)] a run is a function of its inputs alone:
    two runs with the same seed, the same strategy object, the same global
    [k], the same problem instance and the same horizon have the same
    outcome, that is the same reward trace (or the same exception).  What
    the generator held before it was seeded and what was logged before play
    no part; so a second seeded run, started on the generator the first run
    left behind, repeats the first trace. *)
Theorem seeded_runs_agree {G St : Type} `{RandomState G} `{Algorithm G St}
  (x n : Z) (s1 s2 : store G St) :
  self (ctx s1) = self (ctx s2) ->
  k (ctx s1) = k (ctx s2) ->
  true_arm_means s1 = true_arm_means s2 ->
  fst (seeded_run x n s1) = fst (seeded_run x n s2).
Proof.
  intros Hself Hk Hmeans.
  destruct s1 as [[a1 g1 k1] means log1], s2 as [[a2 g2 k2] means2 log2].
  cbn [ctx true_arm_means self k] in *. subst a2 k2 means2.
  unfold seeded_run, bind, in_ctx, np_random_seed. cbn [ctx true_arm_means calls].
  destruct ((x <? 0) || (2 ^ 32 <=? x)); [reflexivity | ].
  unfold set_np_random. cbn [self k].
  apply run_simulation_any_log.
Qed.

Lemma seeded_runs_agree_witness :
  self (ctx random_store) = self (ctx (snd (seeded_run 2077 4 random_store))) /\
  k (ctx random_store) = k (ctx (snd (seeded_run 2077 4 random_store))) /\
  true_arm_means random_store = true_arm_means (snd (seeded_run 2077 4 random_store)) /\
  np_random (ctx random_store) <> np_random (ctx (snd (seeded_run 2077 4 random_store))) /\
  fst (seeded_run 2077 4 random_store) =
    fst (seeded_run 2077 4 (snd (seeded_run 2077 4 random_store))).
Proof.
  split; [reflexivity | ]. split; [reflexivity | ]. split; [reflexivity | ].
  split; [vm_compute; discriminate | ].
  apply (seeded_runs_agree 2077 4 random_store (snd (seeded_run 2077 4 random_store)));
    reflexivity.
Defined.

(** C8. [run_simulation] never writes to the problem instance: for every
    strategy, every horizon and every store, the array of true arm means is
    the same after the call as before, whether the call returned or raised. *)
Theorem run_simulation_keeps_true_arm_means {G St : Type} `{RandomState G} `{Algorithm G St}
  (n : Z) (s : store G St) :
  true_arm_means (snd (run_simulation n s)) = true_arm_means s.
Proof.
  apply (run_simulation_stable (fun s' => true_arm_means s' = true_arm_means s));
    unfold stable_call; try reflexivity.
  - intros s1 Hs1. now destruct (reset (ctx s1)) as [[a | e] w].
  - intros s1 Hs1. now destruct (choose_arm (ctx s1)) as [[a | e] w].
  - intros loc s1 Hs1. now destruct (norm_rvs loc 1%float (ctx s1)) as [[a | e] w].
  - intros arm reward s1 Hs1. now destruct (observe_reward arm reward (ctx s1)) as [[a | e] w].
  - intros t reward s1 Hs1. exact Hs1.
Qed.

(** C9. With horizon 0, [run_simulation] calls [reset] once and nothing
    else.  When [reset] returns, the log gains the single event [EvReset]
    (no [choose_arm], no draw, no [observe_reward]), the strategy is left as
    [reset] left it, and the call returns the empty trace.  The only way
    the call can fail is an exception raised by [reset] itself, which is
    passed on. *)
Theorem run_simulation_zero_horizon {G St : Type} `{RandomState G} `{Algorithm G St}
  (s : store G St) (w' : pyworld G St) :
  (reset (ctx s) = (Return tt, w') ->
   run_simulation 0 s = (Return [], Store w' (true_arm_means s) (calls s ++ [EvReset]))) /\
  (forall e : exn,
     reset (ctx s) = (Raise e, w') ->
     run_simulation 0 s = (Raise e, Store w' (true_arm_means s) (calls s))).
Proof.
  split.
  - intros Ereset. unfold run_simulation.
    erewrite bind_Return by reflexivity.
    erewrite bind_Return by (rewrite logged_eq, Ereset; reflexivity).
    reflexivity.
  - intros e Ereset. unfold run_simulation.
    erewrite bind_Return by reflexivity.
    erewrite bind_Raise by (rewrite logged_eq, Ereset; reflexivity).
    reflexivity.
Qed.

Lemma run_simulation_zero_horizon_witness :
  reset (ctx random_store) = (Return tt, ctx random_store) /\
  run_simulation 0 random_store =
    (Return [], Store (ctx random_store) (true_arm_means random_store)
                  (calls random_store ++ [EvReset])).
Proof.
  split; [reflexivity | ].
  apply (run_simulation_zero_horizon random_store (ctx random_store)). reflexivity.
Defined.

(** C10. The arms [RandomAlg] selects during a run are bounded by the
    global [k] and by nothing else: for every store, whatever the length of
    its [true_arm_means], every arm that [choose_arm] returned during
    [run_simulation] is an integer in [[0, k)], and [k] is the same after
    the run.  With [k = 3] and a single arm, the first choice is arm 2 and
    the lookup of its mean raises [IndexError]. *)
Theorem RandomAlg_arms_below_global_k {G : Type} `{RandomState G}
  (n : Z) (s : store G RandomAlg.t) :
  (exists new : list event,
     calls (snd (run_simulation n s)) = calls s ++ new /\
     Forall (chosen_below (k (ctx s))) new /\
     k (ctx (snd (run_simulation n s))) = k (ctx s)) /\
  run_simulation 1 one_arm_store =
    (Raise IndexError, Store (World RandomAlg.Build 636123794 3) [5%float]
                         [EvReset; EvChoose (PyInt 2)]).
Proof.
  split; [ | reflexivity].
  set (P := fun s' : store G RandomAlg.t =>
              k (ctx s') = k (ctx s) /\
              exists new, calls s' = calls s ++ new /\ Forall (chosen_below (k (ctx s))) new).
  assert (Hsnoc : forall w means l e, P (Store w means l) -> k w = k (ctx s) ->
                    chosen_below (k (ctx s)) e -> P (Store w means (l ++ [e]))).
  { intros w means l e (_ & new & Hl & Hnew) Hk He. cbn [calls] in Hl. subst l.
    split; [exact Hk | ].
    exists (new ++ [e]). split; [cbn [calls]; now rewrite app_assoc | ].
    apply Forall_app. split; [exact Hnew | ]. constructor; [exact He | constructor]. }
  assert (Hrun : P (snd (run_simulation n s))).
  { apply (run_simulation_stable P); unfold stable_call.
    - intros s1 Hs1. cbn. destruct s1. apply Hsnoc; [exact Hs1 | apply Hs1 | exact I].
    - intros [w means l] Hs1. cbn [ctx true_arm_means calls choose_arm RandomAlg.algorithm].
      destruct Hs1 as (Hk & Hnew). cbn [ctx] in Hk.
      destruct (Z.le_gt_cases (k w) 0) as [Hle | Hpos];
        [rewrite RandomAlg_choose_arm_raises by lia; split; assumption | ].
      destruct (Z.le_gt_cases (k w) int64_bound) as [Hfit | Hbig];
        [ | rewrite RandomAlg_choose_arm_raises by lia; split; assumption].
      rewrite RandomAlg_choose_arm_eq by lia.
      apply Hsnoc; [split; assumption | exact Hk | ].
      eexists. split; [reflexivity | ].
      rewrite <- Hk. apply randint_draw_range. lia.
    - intros loc [w means l] Hs1. cbn [ctx true_arm_means calls]. unfold norm_rvs.
      destruct (squeeze_left loc) as [m | ms].
      + destruct (normal_draw m 1%float (np_random w)) as [x g].
        apply Hsnoc; [ | apply Hs1 | exact I]. destruct Hs1 as (Hk & Hnew). split; assumption.
      + destruct (normal_draws ms 1%float (np_random w)) as [xs g].
        apply Hsnoc; [ | apply Hs1 | exact I]. destruct Hs1 as (Hk & Hnew). split; assumption.
    - intros arm reward [w means l] Hs1. cbn. apply Hsnoc; [exact Hs1 | apply Hs1 | exact I].
    - intros t reward [w means l] Hs1. cbn. apply Hsnoc; [exact Hs1 | apply Hs1 | exact I].
    - split; [reflexivity | ]. exists []. split; [now rewrite app_nil_r | constructor]. }
  destruct Hrun as (Hk & new & Hcalls & Hnew). exists new. auto.
Qed.

(** ** Beyond the claims: the edges of a run *)

Section RunEdges.
Context {G St : Type} `{RandomState G} `{Algorithm G St}.

(** The frame of a run, for use below: the instance is only read. *)
Lemma run_simulation_means_kept (n : Z) (s : store G St) :
  true_arm_means (snd (run_simulation n s)) = true_arm_means s.
Proof.
  apply (run_simulation_stable (fun s' => true_arm_means s' = true_arm_means s));
    unfold stable_call; try reflexivity; try (intros; assumption);
    intros; match goal with |- context [match ?c with _ => _ end] => now destruct c as [[? | ?] ?] end.
Qed.

(** A run that returns has the shape of [n] complete steps after one reset. *)
Lemma run_simulation_shape (n : Z) (s : store G St) (trace : list float) (s' : store G St) :
  0 <= n -> run_simulation n s = (Return trace, s') ->
  exists steps : list step,
    trace = map s_cell steps /\ length steps = Z.to_nat n /\
    Forall (step_of_run (true_arm_means s)) steps /\
    true_arm_means s' = true_arm_means s /\
    calls s' = calls s ++ EvReset :: run_events 0 steps.
Proof.
  intros Hn E. destruct s as [w means log]. cbn [ctx true_arm_means calls].
  unfold run_simulation, np_zeros in E.
  destruct (Z.ltb_spec n 0); [lia | ].
  unfold bind in E. cbn [of_outcome] in E.
  rewrite logged_eq in E. cbn [ctx true_arm_means calls] in E.
  destruct (reset w) as [[[] | e] w1]; [ | discriminate E].
  unfold range in E. rewrite <- (Z2Nat.id n) in E at 1 by exact Hn.
  apply (sim_loop_returns (Z.to_nat n) 0 []) in E; [ | reflexivity].
  destruct E as (steps & -> & Hlen & Hsteps & Hmeans & Hcalls).
  exists steps. cbn [app]. repeat split; try assumption.
  rewrite Hcalls. now rewrite <- app_assoc.
Qed.

End RunEdges.

(** X1. A negative horizon is refused before anything happens:
    [np.zeros(n)] raises [ValueError], so [reset] is not called, no arm is
    chosen, and the store is exactly as it was. *)
Theorem run_simulation_negative_horizon {G St : Type} `{RandomState G} `{Algorithm G St}
  (n : Z) (s : store G St) :
  n < 0 -> run_simulation n s = (Raise ValueError, s).
Proof.
  intros Hn. unfold run_simulation, np_zeros.
  destruct (Z.ltb_spec n 0); [ | lia]. reflexivity.
Qed.

Lemma run_simulation_negative_horizon_witness :
  -1 < 0 /\ run_simulation (-1) random_store = (Raise ValueError, random_store).
Proof.
  split; [lia | ]. apply (run_simulation_negative_horizon (-1) random_store). lia.
Defined.

Section RandomAlgRuns.
Context {G : Type} `{RandomState G}.

Lemma RandomAlg_k_kept (n : Z) (s : store G RandomAlg.t) :
  k (ctx (snd (run_simulation n s))) = k (ctx s).
Proof.
  apply (run_simulation_stable (fun s' : store G RandomAlg.t => k (ctx s') = k (ctx s)));
    unfold stable_call.
  6: reflexivity.
  5: intros t reward s1 Hs1; exact Hs1.
  - intros s1 Hs1. exact Hs1.
  - intros s1 Hs1. cbn [choose_arm RandomAlg.algorithm].
    destruct (Z.le_gt_cases (k (ctx s1)) 0) as [Hle | Hpos];
      [now rewrite RandomAlg_choose_arm_raises by lia | ].
    destruct (Z.le_gt_cases (k (ctx s1)) int64_bound) as [Hfit | Hbig];
      [ | now rewrite RandomAlg_choose_arm_raises by lia].
    rewrite RandomAlg_choose_arm_eq by lia. exact Hs1.
  - intros loc s1 Hs1. unfold norm_rvs. destruct (squeeze_left loc) as [m | ms].
    + now destruct (normal_draw m 1%float (np_random (ctx s1))).
    + now destruct (normal_draws ms 1%float (np_random (ctx s1))).
  - intros arm reward s1 Hs1. exact Hs1.
Qed.

(** With enough arms behind every index below [k], a run of [RandomAlg]
    returns its [n] rewards. *)
Lemma RandomAlg_run (n : Z) (s : store G RandomAlg.t) :
  0 <= n -> 0 < k (ctx s) <= int64_bound ->
  k (ctx s) <= Z.of_nat (length (true_arm_means s)) ->
  exists (steps : list step) (s' : store G RandomAlg.t),
    run_simulation n s = (Return (map s_cell steps), s') /\
    length steps = Z.to_nat n /\
    k (ctx s') = k (ctx s) /\
    true_arm_means s' = true_arm_means s /\
    calls s' = calls s ++ EvReset :: run_events 0 steps.
Proof.
  intros Hn Hk Hlen.
  assert (Hcontract : honours_contract (fun w : pyworld G RandomAlg.t => k w = k (ctx s))
                        (fun w => k w = k (ctx s)) (true_arm_means s))
    by (apply RandomAlg_honours_contract; lia).
  destruct (run_simulation_returns _ _ _ Hcontract n s Hn eq_refl eq_refl)
    as (trace & s' & E).
  destruct (run_simulation_shape n s trace s' Hn E) as (steps & -> & Hsteps & _ & Hmeans & Hcalls).
  exists steps, s'. repeat split; try assumption.
  pose proof (RandomAlg_k_kept n s) as Hkept. now rewrite E in Hkept.
Qed.

End RandomAlgRuns.

(** X2. [RandomAlg] never fails on an instance that has an arm for every
    index below [k]: with [0 < k <= len(true_arm_means)] (and [k] within
    numpy's 64-bit range) and [n >= 0], [run_simulation] returns a trace of
    exactly [n] rewards after one reset and [n] complete steps, and leaves
    [k] and the instance as they were. *)
Theorem RandomAlg_run_returns {G : Type} `{RandomState G} (n : Z) (s : store G RandomAlg.t) :
  0 <= n -> 0 < k (ctx s) <= int64_bound ->
  k (ctx s) <= Z.of_nat (length (true_arm_means s)) ->
  exists (trace : list float) (s' : store G RandomAlg.t),
    run_simulation n s = (Return trace, s') /\
    Z.of_nat (length trace) = n /\
    k (ctx s') = k (ctx s) /\
    true_arm_means s' = true_arm_means s /\
    exists steps, length steps = Z.to_nat n /\
                  calls s' = calls s ++ EvReset :: run_events 0 steps.
Proof.
  intros Hn Hk Hlen.
  destruct (RandomAlg_run n s Hn Hk Hlen) as (steps & s' & E & Hsteps & Hkept & Hmeans & Hcalls).
  exists (map s_cell steps), s'. split; [exact E | ].
  split; [rewrite length_map, Hsteps; lia | ].
  split; [exact Hkept | ]. split; [exact Hmeans | ]. now exists steps.
Qed.

Lemma RandomAlg_run_returns_witness :
  0 <= 5 /\ 0 < k (ctx random_store) <= int64_bound /\
  k (ctx random_store) <= Z.of_nat (length (true_arm_means random_store)) /\
  exists (trace : list float) (s' : store Z RandomAlg.t),
    run_simulation 5 random_store = (Return trace, s') /\ Z.of_nat (length trace) = 5.
Proof.
  assert (Hk : 0 < k (ctx random_store) <= int64_bound) by (cbn; unfold int64_bound; lia).
  assert (Hlen : k (ctx random_store) <= Z.of_nat (length (true_arm_means random_store)))
    by (cbn; lia).
  split; [lia | ]. split; [exact Hk | ]. split; [exact Hlen | ].
  destruct (RandomAlg_run_returns 5 random_store) as (trace & s' & E & Hl & _);
    [lia | exact Hk | exact Hlen | ].
  exists trace, s'. split; assumption.
Defined.

(** X3. With a global [k] that [randint] refuses ([k <= 0], or [k] beyond
    the 64-bit range) every run of [RandomAlg] with at least one step fails:
    [reset] returns, the first [choose_arm] raises [ValueError], and nothing
    else has happened (the generator has not been touched, no reward was
    drawn). *)
Theorem RandomAlg_run_refused_k {G : Type} `{RandomState G} (n : Z) (s : store G RandomAlg.t) :
  1 <= n -> k (ctx s) <= 0 \/ int64_bound < k (ctx s) ->
  run_simulation n s =
    (Raise ValueError, Store (ctx s) (true_arm_means s) (calls s ++ [EvReset])).
Proof.
  intros Hn Hk. destruct s as [w means log]. cbn [ctx true_arm_means calls] in *.
  unfold run_simulation, np_zeros. destruct (Z.ltb_spec n 0); [lia | ].
  erewrite bind_Return by reflexivity.
  erewrite bind_Return by (rewrite logged_eq; reflexivity).
  cbn [ctx true_arm_means calls]. unfold range. rewrite seqZ_cons by lia.
  rewrite sim_loop_cons. apply bind_Raise.
  rewrite logged_eq. cbn [ctx true_arm_means calls choose_arm RandomAlg.algorithm].
  now rewrite RandomAlg_choose_arm_raises by exact Hk.
Qed.

Lemma RandomAlg_run_refused_k_witness :
  1 <= 3 /\ k (ctx zero_k_store) <= 0 /\
  run_simulation 3 zero_k_store =
    (Raise ValueError,
     Store (ctx zero_k_store) (true_arm_means zero_k_store) (calls zero_k_store ++ [EvReset])).
Proof.
  split; [lia | ]. split; [cbn; lia | ].
  apply (RandomAlg_run_refused_k 3 zero_k_store); [lia | left; cbn; lia].
Defined.

(** ** Beyond the claims: the classes left to the reader *)

Lemma normal_draws_length {G : Type} `{RandomState G} (locs : list float) (scale : float) (g : G) :
  length (fst (normal_draws locs scale g)) = length locs.
Proof.
  revert g. induction locs as [| loc locs IH]; intros g; cbn [normal_draws]; [reflexivity | ].
  destruct (normal_draw loc scale g) as [x g1]. specialize (IH g1).
  destruct (normal_draws locs scale g1) as [xs g2]. cbn in *. now rewrite IH.
Qed.

Lemma squeeze_left_row (ms : list float) :
  length ms <> 1%nat -> squeeze_left (Row ms) = Row ms.
Proof. destruct ms as [| m [| m' ms]]; cbn; intros Hlen; [reflexivity | lia | reflexivity]. Qed.

Lemma unimplemented_run {G St : Type} `{RandomState G} `{Algorithm G St}
  (n : Z) (s : store G St) :
  unimplemented G St -> 1 <= n -> length (true_arm_means s) <> 1%nat ->
  run_simulation n s =
    (Raise ValueError,
     Store (set_np_random (snd (normal_draws (true_arm_means s) 1%float (np_random (ctx s))))
              (ctx s))
       (true_arm_means s)
       (calls s ++
        [ EvReset; EvChoose PyNone;
          EvSample (Row (true_arm_means s))
            (Row (fst (normal_draws (true_arm_means s) 1%float (np_random (ctx s)))));
          EvObserve PyNone
            (Row (fst (normal_draws (true_arm_means s) 1%float (np_random (ctx s))))) ])).
Proof.
  intros (Hreset & Hchoose & Hobserve) Hn Hlen. destruct s as [w means log].
  cbn [ctx true_arm_means calls] in *.
  destruct (normal_draws means 1%float (np_random w)) as [xs g] eqn:Edraws.
  cbn [fst snd] in *.
  unfold run_simulation, np_zeros. destruct (Z.ltb_spec n 0); [lia | ].
  erewrite bind_Return by reflexivity.
  erewrite bind_Return by (rewrite logged_eq; cbn [ctx]; rewrite Hreset; reflexivity).
  cbn [ctx true_arm_means calls]. unfold range. rewrite seqZ_cons by lia.
  rewrite sim_loop_cons.
  erewrite bind_Return by (rewrite logged_eq; cbn [ctx]; rewrite Hchoose; reflexivity).
  erewrite bind_Return by reflexivity.
  cbn [ctx true_arm_means calls np_getitem].
  erewrite bind_Return
    by (rewrite logged_eq; cbn [ctx]; unfold norm_rvs;
        rewrite squeeze_left_row by exact Hlen; rewrite Edraws; reflexivity).
  erewrite bind_Return by (rewrite logged_eq; cbn [ctx]; rewrite Hobserve; reflexivity).
  cbn [ctx true_arm_means calls set_np_random].
  erewrite bind_Raise
    by (unfold of_outcome, np_setitem;
        rewrite normalize_index_in_range by (rewrite length_replicate; lia);
        reflexivity).
  now rewrite <- !app_assoc.
Qed.

(** X4. Each of the five classes whose bodies are left to the reader has a
    [choose_arm] that returns [None] and a [reset] and an [observe_reward]
    that do nothing; and with such a strategy every run of at least one
    step, on an instance whose number of arms is not 1, fails in its first
    step: the lookup with [None] yields the whole array of means, one
    reward per arm is drawn, [observe_reward(None, rewards)] returns, and
    writing the array of rewards into [rewards[0]] raises [ValueError]. *)
Theorem unimplemented_strategies_fail_first_step {G : Type} `{RandomState G} :
  (unimplemented G ExploreThenCommit.t /\ unimplemented G EpsilonGreedy.t /\
   unimplemented G UCB1.t /\ unimplemented G GradientBandit.t /\
   unimplemented G GradientBanditBaseline.t) /\
  (forall (St : Type) (A : Algorithm G St) (n : Z) (s : store G St),
     unimplemented G St -> 1 <= n -> length (true_arm_means s) <> 1%nat ->
     fst (run_simulation n s) = Raise ValueError /\
     calls (snd (run_simulation n s)) =
       calls s ++
       [ EvReset; EvChoose PyNone;
         EvSample (Row (true_arm_means s))
           (Row (fst (normal_draws (true_arm_means s) 1%float (np_random (ctx s)))));
         EvObserve PyNone
           (Row (fst (normal_draws (true_arm_means s) 1%float (np_random (ctx s))))) ]).
Proof.
  split; [repeat split | ].
  intros St A n s Hstub Hn Hlen. now rewrite (unimplemented_run n s Hstub Hn Hlen).
Qed.

Lemma unimplemented_strategies_fail_first_step_witness :
  unimplemented Z EpsilonGreedy.t /\ 1 <= 7 /\ length (true_arm_means eps_store) <> 1%nat /\
  fst (run_simulation 7 eps_store) = Raise ValueError.
Proof.
  destruct (@unimplemented_strategies_fail_first_step Z _) as ((_ & Heps & _) & Hfail).
  split; [exact Heps | ]. split; [lia | ]. split; [cbn; lia | ].
  apply (Hfail EpsilonGreedy.t _ 7 eps_store Heps); [lia | cbn; lia].
Defined.

(** ** Beyond the claims: a longer horizon only adds steps *)

Section Prefix.
Context {G St : Type} `{RandomState G} `{Algorithm G St}.

Lemma sim_loop_app (ts1 ts2 : list Z) :
  forall (rewards : list float) (s : store G St),
    sim_loop (ts1 ++ ts2) rewards s =
    bind (sim_loop ts1 rewards) (sim_loop ts2) s.
Proof.
  induction ts1 as [| t ts1 IH]; intros rewards s; [reflexivity | ].
  cbn [app]. rewrite !sim_loop_cons. unfold bind.
  destruct (logged choose_arm EvChoose s) as [[arm | e] s1]; [ | reflexivity].
  destruct (getitem_true_arm_means arm s1) as [[loc | e] s2]; [ | reflexivity].
  destruct (logged (norm_rvs loc 1%float) (EvSample loc) s2) as [[reward | e] s3];
    [ | reflexivity].
  destruct (logged (observe_reward arm reward) (fun _ => EvObserve arm reward) s3)
    as [[u | e] s4]; [ | reflexivity].
  destruct (of_outcome (np_setitem rewards t reward) s4) as [[rewards' | e] s5];
    [ | reflexivity].
  destruct (emit (EvStore t reward) s5) as [[u' | e] s6]; [ | reflexivity].
  rewrite IH. reflexivity.
Qed.

(** The first [m] steps do not see how long the array of rewards is. *)
Lemma sim_loop_padding (extra m : nat) :
  forall (t0 : Z) (done : list float) (s : store G St) (r : list float) (s' : store G St),
    t0 = Z.of_nat (length done) ->
    sim_loop (seqZ t0 (Z.of_nat m)) (done ++ replicate (m + extra) 0%float) s = (Return r, s') ->
    exists xs : list float,
      length xs = m /\
      r = (done ++ xs) ++ replicate extra 0%float /\
      sim_loop (seqZ t0 (Z.of_nat m)) (done ++ replicate m 0%float) s =
        (Return (done ++ xs), s').
Proof.
  induction m as [| m IH]; intros t0 done s r s' Ht0 E.
  - cbn in E. injection E as <- <-. exists []. cbn. rewrite !app_nil_r. auto.
  - rewrite seqZ_cons in * by lia.
    replace (Z.pred (Z.of_nat (S m))) with (Z.of_nat m) in * by lia.
    rewrite sim_loop_cons in *. unfold bind in *.
    destruct (logged choose_arm EvChoose s) as [[arm | e] s1]; [ | discriminate E].
    destruct (getitem_true_arm_means arm s1) as [[loc | e] s2]; [ | discriminate E].
    destruct (logged (norm_rvs loc 1%float) (EvSample loc) s2) as [[reward | e] s3];
      [ | discriminate E].
    destruct (logged (observe_reward arm reward) (fun _ => EvObserve arm reward) s3)
      as [[u | e] s4]; [ | discriminate E].
    unfold of_outcome in *. subst t0. cbn [Nat.add] in E.
    destruct (np_setitem (done ++ replicate (S (m + extra)) 0%float) _ reward)
      as [rewards' | e] eqn:Eset; [ | discriminate E].
    destruct (np_setitem_next _ _ _ _ Eset) as (x & Ecell & ->).
    rewrite (np_setitem_next_cell done m reward x Ecell).
    cbn [emit] in *.
    apply IH in E; [ | rewrite length_app; cbn; lia].
    destruct E as (xs & Hlen & -> & E).
    exists (x :: xs). split; [cbn; now rewrite Hlen | ].
    split; [now rewrite <- (app_assoc done [x] xs) | ].
    rewrite E. now rewrite <- (app_assoc done [x] xs).
Qed.

End Prefix.

(** X5. A longer horizon only adds steps: whenever the run with horizon
    [n] returns, the run with any shorter horizon [t] (from the same store)
    returns too, its trace is the first [t] rewards of the longer trace, and
    everything it logged is the beginning of what the longer run logged.
    Neither the strategy nor the draws see the horizon. *)
Theorem run_simulation_prefix {G St : Type} `{RandomState G} `{Algorithm G St}
  (t n : Z) (s : store G St) (trace : list float) (s' : store G St) :
  0 <= t <= n ->
  run_simulation n s = (Return trace, s') ->
  exists (s_t : store G St) (later : list event),
    run_simulation t s = (Return (take (Z.to_nat t) trace), s_t) /\
    calls s' = calls s_t ++ later.
Proof.
  intros Ht E. unfold run_simulation, np_zeros in *.
  destruct (Z.ltb_spec n 0); [lia | ]. destruct (Z.ltb_spec t 0); [lia | ].
  unfold bind in *. cbn [of_outcome] in *.
  destruct (logged reset (fun _ => EvReset) s) as [[u | e] s1]; [ | discriminate E].
  unfold range in *.
  replace n with (Z.of_nat (Z.to_nat t) + Z.of_nat (Z.to_nat (n - t))) in E at 1 by lia.
  rewrite seqZ_app in E by lia. rewrite sim_loop_app in E. unfold bind in E.
  replace (Z.to_nat n) with (Z.to_nat t + Z.to_nat (n - t))%nat in E by lia.
  destruct (sim_loop (seqZ 0 (Z.of_nat (Z.to_nat t))) _ s1) as [[r | e] s_t] eqn:Efirst;
    [ | discriminate E].
  apply (sim_loop_padding (Z.to_nat (n - t)) (Z.to_nat t) 0 []) in Efirst; [ | reflexivity].
  destruct Efirst as (xs & Hlen & -> & Efirst). cbn [app] in *.
  rewrite Z2Nat.id in Efirst by lia. rewrite Efirst.
  destruct s_t as [w_t means_t log_t].
  replace (0 + Z.of_nat (Z.to_nat t)) with (Z.of_nat (length xs)) in E by lia.
  apply (sim_loop_returns (Z.to_nat (n - t)) _ xs) in E; [ | reflexivity].
  destruct E as (steps & -> & _ & _ & _ & Hcalls).
  exists (Store w_t means_t log_t), (run_events (Z.of_nat (length xs)) steps).
  split; [ | exact Hcalls].
  rewrite <- Hlen. now rewrite take_app_length.
Qed.

Lemma run_simulation_prefix_witness :
  0 <= 2 <= 4 /\
  fst (run_simulation 4 random_store) = Return [6%float; 1%float; 1%float; 4%float] /\
  exists (s_t : store Z RandomAlg.t) (later : list event),
    run_simulation 2 random_store =
      (Return (take (Z.to_nat 2) [6%float; 1%float; 1%float; 4%float]), s_t) /\
    calls (snd (run_simulation 4 random_store)) = calls s_t ++ later.
Proof.
  split; [lia | ]. split; [reflexivity | ].
  apply (run_simulation_prefix 2 4 random_store [6%float; 1%float; 1%float; 4%float]
           (snd (run_simulation 4 random_store))); [lia | reflexivity].
Defined.

(** ** Beyond the claims: the experiments *)

Lemma resets_from (l : list event) (c : Z) :
  fold_left (fun c e => match e with EvReset => c + 1 | _ => c end) l c = c + resets l.
Proof.
  unfold resets. revert c. induction l as [| e l IH]; intros c; cbn [fold_left]; [lia | ].
  rewrite IH, (IH (match e with EvReset => 0 + 1 | _ => 0 end)). destruct e; lia.
Qed.

Lemma resets_app (l1 l2 : list event) : resets (l1 ++ l2) = resets l1 + resets l2.
Proof. unfold resets at 1. rewrite fold_left_app. fold (resets l1). apply resets_from. Qed.

Lemma resets_run_events (steps : list step) (t : Z) : resets (run_events t steps) = 0.
Proof.
  revert t. induction steps as [| st steps IH]; intros t; [reflexivity | ].
  cbn [run_events]. rewrite resets_app, IH. reflexivity.
Qed.

Lemma np_setrow_same_length (a : list (list float)) (i : Z) (v row : list float) :
  0 <= i < Z.of_nat (length a) -> a !! Z.to_nat i = Some row -> length v = length row ->
  np_setrow a i v = Return (<[Z.to_nat i := v]> a).
Proof.
  intros Hi Erow Hlen. unfold np_setrow.
  rewrite normalize_index_in_range by exact Hi. rewrite Erow.
  now rewrite (proj2 (Nat.eqb_eq _ _) Hlen).
Qed.

Lemma normal_rows_shape {G : Type} `{RandomState G} (rows : nat) (locs : list float)
  (scale : float) (g : G) :
  length (fst (normal_rows rows locs scale g)) = rows /\
  Forall (fun row => length row = length locs) (fst (normal_rows rows locs scale g)).
Proof.
  revert g. induction rows as [| rows IH]; intros g; cbn [normal_rows].
  - split; [reflexivity | constructor].
  - pose proof (normal_draws_length locs scale g) as Hrow.
    destruct (normal_draws locs scale g) as [row g1]. specialize (IH g1).
    destruct (normal_rows rows locs scale g1) as [rest g2]. cbn [fst] in *.
    destruct IH as [Hlen Hrows]. split; [cbn; now rewrite Hlen | now constructor].
Qed.

Section ExperimentFacts.
Context {G St : Type} `{RandomState G} `{Algorithm G St}.

(** What an experiment leaves alone, whatever the strategy does. *)
Definition same_suite (L L' : lab G St) : Prop :=
  arm_means L' = arm_means L /\
  num_mab_problems L' = num_mab_problems L /\
  time_steps_per_problem L' = time_steps_per_problem L.

Lemma run_on_problem_same_suite (problem : Z) (L : lab G St) :
  same_suite L (snd (run_on_problem problem L)).
Proof.
  unfold run_on_problem, same_suite.
  destruct (normalize_index (length (arm_means L)) problem) as [j | e]; [ | auto].
  destruct (arm_means L !! j) as [row | ] eqn:Erow; [ | auto].
  pose proof (run_simulation_means_kept (time_steps_per_problem L)
                (Store (lab_ctx L) row (lab_calls L))) as Hkept.
  destruct (run_simulation _ _) as [o s']. cbn [snd arm_means num_mab_problems
    time_steps_per_problem true_arm_means] in *.
  rewrite Hkept. split; [now apply list_insert_id | auto].
Qed.

Lemma problems_loop_same_suite (problems : list Z) :
  forall (rewards_matrix : list (list float)) (L : lab G St),
    same_suite L (snd (problems_loop problems rewards_matrix L)).
Proof.
  induction problems as [| problem problems IH]; intros rewards_matrix L.
  - repeat split.
  - cbn [problems_loop]. unfold bind.
    pose proof (run_on_problem_same_suite problem L) as Hrun.
    destruct (run_on_problem problem L) as [[trace | e] L1]; [ | exact Hrun].
    unfold of_outcome.
    destruct (np_setrow rewards_matrix problem trace) as [rewards_matrix' | e]; [ | exact Hrun].
    specialize (IH rewards_matrix' L1). unfold same_suite in *. cbn [snd] in Hrun.
    destruct IH as (I1 & I2 & I3), Hrun as (R1 & R2 & R3). repeat split; congruence.
Qed.

End ExperimentFacts.

(** X6. An experiment only reads the suite of problems: for every strategy,
    whether the evaluation returns or fails, [arm_means],
    [num_mab_problems] and [time_steps_per_problem] are afterwards what
    they were before. *)
Theorem rewards_for_algorithm_keeps_suite {G St : Type} `{RandomState G} `{Algorithm G St}
  (L : lab G St) :
  arm_means (snd (rewards_for_algorithm L)) = arm_means L /\
  num_mab_problems (snd (rewards_for_algorithm L)) = num_mab_problems L /\
  time_steps_per_problem (snd (rewards_for_algorithm L)) = time_steps_per_problem L.
Proof.
  unfold rewards_for_algorithm, bind, of_outcome.
  destruct (np_zeros2 _ _) as [rewards_matrix | e]; [ | auto].
  apply problems_loop_same_suite.
Qed.

Section RandomExperiment.
Context {G : Type} `{RandomState G}.

Lemma RandomAlg_run_on_problem (problem : Z) (L : lab G RandomAlg.t) :
  0 <= problem < Z.of_nat (length (arm_means L)) ->
  0 <= time_steps_per_problem L ->
  0 < k (lab_ctx L) <= int64_bound ->
  Forall (fun row => k (lab_ctx L) <= Z.of_nat (length row)) (arm_means L) ->
  exists (trace : list float) (w' : pyworld G RandomAlg.t) (new : list event),
    run_on_problem problem L =
      (Return trace,
       Lab w' (arm_means L) (num_mab_problems L) (time_steps_per_problem L)
         (lab_calls L ++ new)) /\
    Z.of_nat (length trace) = time_steps_per_problem L /\
    k w' = k (lab_ctx L) /\
    resets new = 1.
Proof.
  intros Hproblem Hsteps Hk Hrows. unfold run_on_problem.
  rewrite normalize_index_in_range by exact Hproblem.
  destruct (arm_means L !! Z.to_nat problem) as [row | ] eqn:Erow;
    [ | apply lookup_ge_None in Erow; lia].
  assert (Hrow : k (lab_ctx L) <= Z.of_nat (length row)).
  { rewrite Forall_forall in Hrows. apply Hrows. eapply list_elem_of_lookup_2, Erow. }
  destruct (RandomAlg_run (time_steps_per_problem L) (Store (lab_ctx L) row (lab_calls L)))
    as (steps & [w' means' log'] & E & Hlen & Hkept & Hmeans & Hcalls);
    [exact Hsteps | exact Hk | exact Hrow | ].
  cbn [ctx true_arm_means calls] in *. rewrite E. subst means' log'.
  cbn [ctx true_arm_means calls].
  exists (map s_cell steps), w', (EvReset :: run_events 0 steps).
  split; [now rewrite (list_insert_id _ _ _ Erow) | ].
  split; [rewrite length_map, Hlen; lia | ]. split; [exact Hkept | ].
  change (EvReset :: run_events 0 steps) with ([EvReset] ++ run_events 0 steps).
  now rewrite resets_app, resets_run_events.
Qed.

Lemma RandomAlg_problems_loop (m : nat) :
  forall (p0 : Z) (rewards_matrix : list (list float)) (L : lab G RandomAlg.t),
    0 <= p0 -> p0 + Z.of_nat m <= Z.of_nat (length (arm_means L)) ->
    p0 + Z.of_nat m <= Z.of_nat (length rewards_matrix) ->
    Forall (fun row => Z.of_nat (length row) = time_steps_per_problem L) rewards_matrix ->
    0 < k (lab_ctx L) <= int64_bound ->
    Forall (fun row => k (lab_ctx L) <= Z.of_nat (length row)) (arm_means L) ->
    exists (rewards_matrix' : list (list float)) (w' : pyworld G RandomAlg.t)
           (new : list event),
      problems_loop (seqZ p0 (Z.of_nat m)) rewards_matrix L =
        (Return rewards_matrix',
         Lab w' (arm_means L) (num_mab_problems L) (time_steps_per_problem L)
           (lab_calls L ++ new)) /\
      length rewards_matrix' = length rewards_matrix /\
      Forall (fun row => Z.of_nat (length row) = time_steps_per_problem L) rewards_matrix' /\
      resets new = Z.of_nat m.
Proof.
  induction m as [| m IH]; intros p0 rewards_matrix L Hp0 Hmeans Hmatrix Hshape Hk Hrows.
  - exists rewards_matrix, (lab_ctx L), []. rewrite app_nil_r. destruct L. repeat split. exact Hshape.
  - rewrite seqZ_cons by lia.
    replace (Z.pred (Z.of_nat (S m))) with (Z.of_nat m) by lia.
    cbn [problems_loop].
    assert (Hsteps : 0 <= time_steps_per_problem L).
    { destruct (rewards_matrix !! Z.to_nat p0) as [row | ] eqn:Erow;
        [ | apply lookup_ge_None in Erow; lia].
      rewrite Forall_forall in Hshape.
      rewrite <- (Hshape row) by (eapply list_elem_of_lookup_2, Erow). lia. }
    destruct (RandomAlg_run_on_problem p0 L) as (trace & w1 & new1 & E1 & Htrace & Hk1 & Hnew1);
      [lia | exact Hsteps | exact Hk | exact Hrows | ].
    erewrite bind_Return by exact E1.
    destruct (rewards_matrix !! Z.to_nat p0) as [row | ] eqn:Erow;
      [ | apply lookup_ge_None in Erow; lia].
    assert (Hrow : Z.of_nat (length row) = time_steps_per_problem L).
    { rewrite Forall_forall in Hshape. apply Hshape. eapply list_elem_of_lookup_2, Erow. }
    erewrite bind_Return
      by (unfold of_outcome; rewrite (np_setrow_same_length _ _ _ row) by (lia || exact Erow);
          reflexivity).
    destruct (IH (Z.succ p0) (<[Z.to_nat p0 := trace]> rewards_matrix)
                (Lab w1 (arm_means L) (num_mab_problems L) (time_steps_per_problem L)
                   (lab_calls L ++ new1)))
      as (rewards_matrix' & w' & new & E & Hlen & Hshape' & Hnew);
      cbn [lab_ctx arm_means num_mab_problems time_steps_per_problem lab_calls];
      try lia.
    { rewrite length_insert. lia. }
    { apply Forall_insert; [exact Hshape | exact Htrace]. }
    { now rewrite Hk1. }
    cbn [lab_ctx arm_means num_mab_problems time_steps_per_problem lab_calls] in E.
    exists rewards_matrix', w', (new1 ++ new).
    split; [rewrite E; now rewrite app_assoc | ].
    split; [rewrite Hlen; apply length_insert | ].
    split; [exact Hshape' | ]. rewrite resets_app. lia.
Qed.

(** The evaluation of [RandomAlg] on a suite that has, in every problem, an
    arm for each index below [k]. *)
Lemma RandomAlg_rewards_for_algorithm (L : lab G RandomAlg.t) :
  0 <= num_mab_problems L <= Z.of_nat (length (arm_means L)) ->
  0 <= time_steps_per_problem L ->
  0 < k (lab_ctx L) <= int64_bound ->
  Forall (fun row => k (lab_ctx L) <= Z.of_nat (length row)) (arm_means L) ->
  exists (rewards_matrix : list (list float)) (w' : pyworld G RandomAlg.t)
         (new : list event),
    rewards_for_algorithm L =
      (Return rewards_matrix,
       Lab w' (arm_means L) (num_mab_problems L) (time_steps_per_problem L)
         (lab_calls L ++ new)) /\
    Z.of_nat (length rewards_matrix) = num_mab_problems L /\
    Forall (fun row => Z.of_nat (length row) = time_steps_per_problem L) rewards_matrix /\
    resets new = num_mab_problems L.
Proof.
  intros Hproblems Hsteps Hk Hrows. unfold rewards_for_algorithm, np_zeros2.
  destruct (Z.ltb_spec (num_mab_problems L) 0); [lia | ].
  destruct (Z.ltb_spec (time_steps_per_problem L) 0); [lia | ]. cbn [orb].
  erewrite bind_Return by reflexivity. unfold range.
  destruct (RandomAlg_problems_loop (Z.to_nat (num_mab_problems L)) 0
              (replicate (Z.to_nat (num_mab_problems L))
                 (replicate (Z.to_nat (time_steps_per_problem L)) 0%float)) L)
    as (rewards_matrix & w' & new & E & Hlen & Hshape & Hnew);
    try (rewrite ?length_replicate; lia); try assumption.
  { apply Forall_replicate. rewrite length_replicate. lia. }
  rewrite Z2Nat.id in E by lia.
  exists rewards_matrix, w', new. split; [exact E | ].
  split; [rewrite Hlen, length_replicate; lia | ]. split; [exact Hshape | lia].
Qed.

Lemma first_experiment_loop_eq (problems : list Z) :
  forall (rewards_matrix : list (list float)) (L : lab G RandomAlg.t),
    first_experiment_loop problems rewards_matrix L =
    problems_loop problems rewards_matrix L.
Proof.
  induction problems as [| problem problems IH]; intros rewards_matrix L; [reflexivity | ].
  cbn [first_experiment_loop problems_loop]. unfold bind at 1. cbn [of_outcome RandomAlg.__init__].
  unfold bind.
  replace (Lab (World RandomAlg.Build (np_random (lab_ctx L)) (k (lab_ctx L))) (arm_means L)
             (num_mab_problems L) (time_steps_per_problem L) (lab_calls L)) with L
    by (destruct L as [[[] g kk] a p t l]; reflexivity).
  destruct (run_on_problem problem L) as [[trace | e] L1]; [ | reflexivity].
  destruct (of_outcome (np_setrow rewards_matrix problem trace) L1) as [[m' | e] L2];
    [apply IH | reflexivity].
Qed.

Lemma first_experiment_eq (L : lab G RandomAlg.t) :
  first_experiment L = rewards_for_algorithm L.
Proof.
  unfold first_experiment, rewards_for_algorithm, bind.
  destruct (of_outcome _ L) as [[rewards_matrix | e] L1]; [ | reflexivity].
  apply first_experiment_loop_eq.
Qed.

End RandomExperiment.

(** X7. The evaluation of [RandomAlg] completes on every suite that has, in
    each problem, an arm for every index below [k]: with
    [0 <= num_mab_problems <= len(arm_means)], [time_steps_per_problem >= 0]
    and [0 < k <= 2^63], [rewards_for_algorithm] returns a matrix of
    [num_mab_problems] rows of [time_steps_per_problem] rewards each, after
    exactly one [reset] per problem, and leaves the suite as it was. *)
Theorem RandomAlg_experiment_completes {G : Type} `{RandomState G} (L : lab G RandomAlg.t) :
  0 <= num_mab_problems L <= Z.of_nat (length (arm_means L)) ->
  0 <= time_steps_per_problem L ->
  0 < k (lab_ctx L) <= int64_bound ->
  Forall (fun row => k (lab_ctx L) <= Z.of_nat (length row)) (arm_means L) ->
  exists (rewards_matrix : list (list float)) (L' : lab G RandomAlg.t) (new : list event),
    rewards_for_algorithm L = (Return rewards_matrix, L') /\
    Z.of_nat (length rewards_matrix) = num_mab_problems L /\
    Forall (fun row => Z.of_nat (length row) = time_steps_per_problem L) rewards_matrix /\
    arm_means L' = arm_means L /\
    lab_calls L' = lab_calls L ++ new /\
    resets new = num_mab_problems L.
Proof.
  intros Hproblems Hsteps Hk Hrows.
  destruct (RandomAlg_rewards_for_algorithm L Hproblems Hsteps Hk Hrows)
    as (rewards_matrix & w' & new & E & Hlen & Hshape & Hnew).
  exists rewards_matrix, (Lab w' (arm_means L) (num_mab_problems L) (time_steps_per_problem L)
                            (lab_calls L ++ new)), new.
  repeat split; assumption.
Qed.

Lemma RandomAlg_experiment_completes_witness :
  0 <= num_mab_problems random_lab <= Z.of_nat (length (arm_means random_lab)) /\
  0 <= time_steps_per_problem random_lab /\
  0 < k (lab_ctx random_lab) <= int64_bound /\
  Forall (fun row => k (lab_ctx random_lab) <= Z.of_nat (length row)) (arm_means random_lab) /\
  exists (rewards_matrix : list (list float)) (L' : lab Z RandomAlg.t),
    rewards_for_algorithm random_lab = (Return rewards_matrix, L') /\
    Z.of_nat (length rewards_matrix) = 2.
Proof.
  assert (H1 : 0 <= num_mab_problems random_lab <= Z.of_nat (length (arm_means random_lab)))
    by (cbn; lia).
  assert (H2 : 0 <= time_steps_per_problem random_lab) by (cbn; lia).
  assert (H3 : 0 < k (lab_ctx random_lab) <= int64_bound) by (cbn; unfold int64_bound; lia).
  assert (H4 : Forall (fun row => k (lab_ctx random_lab) <= Z.of_nat (length row))
                 (arm_means random_lab))
    by (repeat constructor; cbn; lia).
  split; [exact H1 | ]. split; [exact H2 | ]. split; [exact H3 | ]. split; [exact H4 | ].
  destruct (RandomAlg_experiment_completes random_lab H1 H2 H3 H4)
    as (rewards_matrix & L' & new & E & Hlen & _).
  exists rewards_matrix, L'. split; [exact E | exact Hlen].
Defined.

(** X8. With a strategy class left to the reader, an evaluation with at
    least one problem and one time step, whose first problem does not have
    exactly one arm, fails in the first step of that first problem with
    [ValueError]: [reset] was called once, no row of the rewards matrix was
    written, and the suite is as it was. *)
Theorem unimplemented_experiment_fails {G St : Type} `{RandomState G} `{Algorithm G St}
  (L : lab G St) (row : list float) (rest : list (list float)) :
  unimplemented G St ->
  1 <= num_mab_problems L -> 1 <= time_steps_per_problem L ->
  arm_means L = row :: rest -> length row <> 1%nat ->
  fst (rewards_for_algorithm L) = Raise ValueError /\
  arm_means (snd (rewards_for_algorithm L)) = arm_means L /\
  lab_calls (snd (rewards_for_algorithm L)) =
    lab_calls L ++
    [ EvReset; EvChoose PyNone;
      EvSample (Row row) (Row (fst (normal_draws row 1%float (np_random (lab_ctx L)))));
      EvObserve PyNone (Row (fst (normal_draws row 1%float (np_random (lab_ctx L))))) ].
Proof.
  intros Hstub Hproblems Hsteps Hmeans Hrow.
  unfold rewards_for_algorithm, np_zeros2.
  destruct (Z.ltb_spec (num_mab_problems L) 0); [lia | ].
  destruct (Z.ltb_spec (time_steps_per_problem L) 0); [lia | ]. cbn [orb].
  erewrite bind_Return by reflexivity. unfold range. rewrite seqZ_cons by lia.
  cbn [problems_loop].
  erewrite bind_Raise.
  2: { unfold run_on_problem. rewrite Hmeans. cbn [length].
       rewrite normalize_index_in_range by lia.
       change ((row :: rest) !! Z.to_nat 0) with (Some row). cbv beta iota.
       rewrite (unimplemented_run (time_steps_per_problem L)
                  (Store (lab_ctx L) row (lab_calls L)) Hstub Hsteps Hrow).
       reflexivity. }
  cbn [fst snd arm_means lab_calls ctx true_arm_means calls]. rewrite Hmeans. auto.
Qed.

Lemma unimplemented_experiment_fails_witness :
  unimplemented Z EpsilonGreedy.t /\
  1 <= num_mab_problems eps_lab /\ 1 <= time_steps_per_problem eps_lab /\
  length [0%float; 0%float; 5%float] <> 1%nat /\
  fst (rewards_for_algorithm eps_lab) = Raise ValueError.
Proof.
  assert (Hstub : unimplemented Z EpsilonGreedy.t) by (repeat split).
  split; [exact Hstub | ]. split; [cbn; lia | ]. split; [cbn; lia | ]. split; [cbn; lia | ].
  apply (unimplemented_experiment_fails eps_lab [0%float; 0%float; 5%float]
           [[1%float; 2%float; 3%float]] Hstub); [cbn; lia | cbn; lia | reflexivity | cbn; lia].
Defined.

Lemma make_problems_returns {G St : Type} `{RandomState G} `{Algorithm G St}
  (x kk problems steps : Z) (L : lab G St) :
  0 <= x < 2 ^ 32 -> 0 <= problems -> 0 <= kk ->
  exists L' : lab G St,
    make_problems x kk problems steps L = (Return tt, L') /\
    k (lab_ctx L') = kk /\ num_mab_problems L' = problems /\
    time_steps_per_problem L' = steps /\
    Z.of_nat (length (arm_means L')) = problems /\
    Forall (fun row => Z.of_nat (length row) = kk) (arm_means L') /\
    self (lab_ctx L') = self (lab_ctx L) /\ lab_calls L' = lab_calls L.
Proof.
  intros Hx Hproblems Hkk. unfold make_problems, np_random_seed, np_random_normal.
  destruct (Z.ltb_spec x 0); [lia | ]. destruct (Z.leb_spec (2 ^ 32) x); [lia | ].
  cbn [orb set_np_random self np_random k].
  destruct (Z.ltb_spec problems 0); [lia | ]. destruct (Z.ltb_spec kk 0); [lia | ].
  cbn [orb].
  pose proof (normal_rows_shape (Z.to_nat problems) (replicate (Z.to_nat kk) 0%float)
                1%float (seed_state x)) as [Hlen Hrows].
  destruct (normal_rows _ _ _ _) as [a g]. cbn [fst] in *.
  eexists. split; [reflexivity | ]. cbn.
  repeat split; try lia.
  eapply Forall_impl; [exact Hrows | ]. intros row Hrow. cbn in Hrow.
  rewrite Hrow, length_replicate. lia.
Qed.

(** X9. The cell that creates the problems: with a seed numpy accepts and
    non-negative sizes it returns, [k], [num_mab_problems] and
    [time_steps_per_problem] hold the given values, and [arm_means] has
    [num_mab_problems] rows of exactly [k] means each; the strategy object
    and the log are untouched.  With a negative size the draw raises
    [ValueError] and [arm_means] keeps its old value, while the three
    globals have already been set. *)
Theorem make_problems_shape {G St : Type} `{RandomState G} `{Algorithm G St}
  (x kk problems steps : Z) (L : lab G St) :
  0 <= x < 2 ^ 32 ->
  (0 <= problems -> 0 <= kk ->
   exists L' : lab G St,
     make_problems x kk problems steps L = (Return tt, L') /\
     k (lab_ctx L') = kk /\ num_mab_problems L' = problems /\
     time_steps_per_problem L' = steps /\
     Z.of_nat (length (arm_means L')) = problems /\
     Forall (fun row => Z.of_nat (length row) = kk) (arm_means L') /\
     self (lab_ctx L') = self (lab_ctx L) /\ lab_calls L' = lab_calls L) /\
  (problems < 0 \/ kk < 0 ->
   make_problems x kk problems steps L =
     (Raise ValueError,
      Lab (World (self (lab_ctx L)) (seed_state x) kk) (arm_means L) problems steps
        (lab_calls L))).
Proof.
  intros Hx. split; [intros Hproblems Hkk; now apply make_problems_returns | ].
  intros Hneg. unfold make_problems, np_random_seed, np_random_normal.
  destruct (Z.ltb_spec x 0); [lia | ]. destruct (Z.leb_spec (2 ^ 32) x); [lia | ].
  cbn [orb set_np_random self np_random k].
  destruct (Z.ltb_spec problems 0), (Z.ltb_spec kk 0); cbn [orb]; try reflexivity; lia.
Qed.

Lemma make_problems_shape_witness :
  0 <= 7 < 2 ^ 32 /\ 0 <= 2 /\ 0 <= 3 /\
  exists L' : lab Z RandomAlg.t,
    make_problems 7 3 2 4 random_lab = (Return tt, L') /\
    Z.of_nat (length (arm_means L')) = 2 /\
    Forall (fun row => Z.of_nat (length row) = 3) (arm_means L').
Proof.
  split; [lia | ]. split; [lia | ]. split; [lia | ].
  destruct (make_problems_shape 7 3 2 4 random_lab) as [Hok _]; [lia | ].
  destruct Hok as (L' & E & _ & _ & _ & Hlen & Hrows & _); [lia | lia | ].
  exists L'. split; [exact E | ]. split; [exact Hlen | exact Hrows].
Defined.

(** X10. The notebook's first experiment, from the creation of the
    problems on: for every seed numpy accepts, every [0 < k <= 2^63] and all
    non-negative numbers of problems and of time steps, creating the
    problems and then evaluating a new [RandomAlg()] on each of them returns
    a rewards matrix with one row per problem and one reward per time step.
    Every problem has exactly [k] arms, so no choice of [RandomAlg] can miss
    the array. *)
Theorem first_experiment_completes {G : Type} `{RandomState G}
  (x kk problems steps : Z) (L : lab G RandomAlg.t) :
  0 <= x < 2 ^ 32 -> 0 < kk <= int64_bound -> 0 <= problems -> 0 <= steps ->
  exists (rewards_matrix : list (list float)) (L' : lab G RandomAlg.t),
    bind (make_problems x kk problems steps) (fun _ => first_experiment) L =
      (Return rewards_matrix, L') /\
    Z.of_nat (length rewards_matrix) = problems /\
    Forall (fun row => Z.of_nat (length row) = steps) rewards_matrix.
Proof.
  intros Hx Hkk Hproblems Hsteps.
  destruct (make_problems_returns x kk problems steps L Hx Hproblems ltac:(lia))
    as (L1 & E1 & Hk1 & Hp1 & Ht1 & Hlen1 & Hrows1 & _).
  erewrite bind_Return by exact E1. rewrite first_experiment_eq.
  destruct (RandomAlg_rewards_for_algorithm L1)
    as (rewards_matrix & w' & new & E & Hlen & Hshape & _); try lia.
  { eapply Forall_impl; [exact Hrows1 | ]. intros row Hrow. cbn in Hrow. lia. }
  eexists _, _. split; [exact E | ]. split; [lia | ].
  now rewrite <- Ht1.
Qed.

Lemma first_experiment_completes_witness :
  0 <= 7 < 2 ^ 32 /\ 0 < 3 <= int64_bound /\ 0 <= 2 /\ 0 <= 4 /\
  exists (rewards_matrix : list (list float)) (L' : lab Z RandomAlg.t),
    bind (make_problems 7 3 2 4) (fun _ => first_experiment) random_lab =
      (Return rewards_matrix, L') /\
    Z.of_nat (length rewards_matrix) = 2.
Proof.
  assert (Hk : 0 < 3 <= int64_bound) by (unfold int64_bound; lia).
  split; [lia | ]. split; [exact Hk | ]. split; [lia | ]. split; [lia | ].
  destruct (first_experiment_completes 7 3 2 4 random_lab) as (m & L' & E & Hlen & _);
    [lia | exact Hk | lia | lia | ].
  exists m, L'. split; [exact E | exact Hlen].
Defined.

(** X11. The loop of the first experiment, which builds a new [RandomAlg()]
    for every problem, and the evaluation function applied to one
    [RandomAlg] object compute the same thing: from every state, the same
    outcome (the same rewards matrix, or the same exception) and the same
    final state. *)
Theorem first_experiment_is_evaluation {G : Type} `{RandomState G} (L : lab G RandomAlg.t) :
  first_experiment L = rewards_for_algorithm L.
Proof. apply first_experiment_eq. Qed.

(** ** Beyond the claims: cumulative rewards and labels *)

Lemma cumsum_from_take (t : nat) :
  forall (acc : float) (l : list float),
    take t (cumsum_from acc l) = cumsum_from acc (take t l).
Proof.
  induction t as [| t IH]; intros acc l; [reflexivity | ].
  destruct l as [| x l]; [reflexivity | ]. cbn [take cumsum_from]. now rewrite IH.
Qed.

Lemma cumsum_from_length (l : list float) : forall acc, length (cumsum_from acc l) = length l.
Proof. induction l as [| x l IH]; intros acc; cbn; [reflexivity | now rewrite IH]. Qed.

Lemma np_cumsum_take (t : nat) (l : list float) :
  take t (np_cumsum l) = np_cumsum (take t l).
Proof.
  destruct t as [| t]; [reflexivity | ]. destruct l as [| x l]; [reflexivity | ].
  cbn [take np_cumsum]. now rewrite cumsum_from_take.
Qed.

Lemma np_cumsum_length (l : list float) : length (np_cumsum l) = length l.
Proof. destruct l as [| x l]; cbn; [reflexivity | now rewrite cumsum_from_length]. Qed.

(** X12. The cumulative rewards look neither ahead nor across problems:
    the matrix of cumulative sums has the shape of the rewards matrix, each
    of its rows starts with the first reward of the same problem, and
    cutting every row of rewards after [t] time steps cuts every row of
    cumulative sums after [t] time steps and changes nothing before. *)
Theorem cumulative_rewards_prefix (t : nat) (rewards_matrix : list (list float)) :
  length (cumulative_rewards rewards_matrix) = length rewards_matrix /\
  Forall2 (fun row sums => length sums = length row /\ head sums = head row)
    rewards_matrix (cumulative_rewards rewards_matrix) /\
  cumulative_rewards (map (take t) rewards_matrix) =
    map (take t) (cumulative_rewards rewards_matrix).
Proof.
  unfold cumulative_rewards. split; [apply length_map | split].
  - induction rewards_matrix as [| row rows IH]; cbn [map]; constructor; [ | exact IH].
    split; [apply np_cumsum_length | now destruct row].
  - rewrite !map_map. apply map_ext. intros row. now rewrite np_cumsum_take.
Qed.

Lemma string_append_inj (c : Ascii.ascii) (s1 s2 : String.string) :
  String.append s1 (String.String c String.EmptyString) =
  String.append s2 (String.String c String.EmptyString) -> s1 = s2.
Proof.
  revert s2. induction s1 as [| a s1 IH]; intros [| b s2] E; cbn in E.
  - reflexivity.
  - injection E as _ E. destruct s2; discriminate E.
  - injection E as _ E. destruct s1; discriminate E.
  - injection E as -> E. f_equal. now apply IH.
Qed.

Lemma str_int_inj (a b : Z) : str_int a = str_int b -> a = b.
Proof.
  unfold str_int. intros E.
  assert (Hparse : forall z,
            DecimalString.NilZero.int_of_string (DecimalString.NilZero.string_of_int (Z.to_int z))
            = Some (Z.to_int z)).
  { intros z. apply DecimalString.NilZero.isi; destruct z as [| p | p]; cbn;
      try discriminate; intros [= Hnil]; now apply DecimalPos.Unsigned.to_uint_nonnil in Hnil. }
  apply (f_equal DecimalString.NilZero.int_of_string) in E. rewrite !Hparse in E.
  injection E as E. apply (f_equal Z.of_int) in E. now rewrite !DecimalZ.of_to in E.
Qed.

(** X13. The label of an explore-then-commit strategy determines its [m]:
    two [ExploreThenCommit] objects with the same [__str__] have the same
    [m], and no such label is the label of [RandomAlg].  The legends of the
    plots therefore tell the configurations apart. *)
Theorem ExploreThenCommit_label_injective (a b : ExploreThenCommit.t) (r : RandomAlg.t) :
  (ExploreThenCommit__str__ a = ExploreThenCommit__str__ b -> a = b) /\
  ExploreThenCommit__str__ a <> RandomAlg__str__ r.
Proof.
  split; [ | discriminate].
  unfold ExploreThenCommit__str__. intros E. cbn [String.append] in E.
  injection E as E. apply string_append_inj, str_int_inj in E.
  destruct a, b. cbn in E. now subst.
Qed.

Lemma ExploreThenCommit_label_injective_witness :
  ExploreThenCommit__str__ (ExploreThenCommit.Build 10) =
    ExploreThenCommit__str__ (ExploreThenCommit.Build (5 + 5)) /\
  ExploreThenCommit.Build 10 = ExploreThenCommit.Build (5 + 5).
Proof.
  split; [reflexivity | ].
  apply (ExploreThenCommit_label_injective (ExploreThenCommit.Build 10)
           (ExploreThenCommit.Build (5 + 5)) RandomAlg.Build). reflexivity.
Defined.

Example ExploreThenCommit_label_example :
  ExploreThenCommit__str__ (ExploreThenCommit.Build 20) = "ETC(20)"%pystr /\
  str_int 0 = "0"%pystr /\ str_int (-3) = "-3"%pystr.
Proof. repeat split. Qed.

(** ** Beyond the claims: what a run of RandomAlg draws *)

Lemma RandomAlg_sim_loop_rollout {G : Type} `{RandomState G} (means : list float) (kk : Z)
  (m : nat) :
  0 < kk <= int64_bound -> kk <= Z.of_nat (length means) ->
  forall (t0 : Z) (done : list float) (g : G) (log : list event),
    t0 = Z.of_nat (length done) ->
    exists log' : list event,
      sim_loop (seqZ t0 (Z.of_nat m)) (done ++ replicate m 0%float)
        (Store (World RandomAlg.Build g kk) means log) =
      (Return (done ++ fst (random_rollout m kk means g)),
       Store (World RandomAlg.Build (snd (random_rollout m kk means g)) kk) means log').
Proof.
  intros Hkk Hlen. induction m as [| m IH]; intros t0 done g log Ht0.
  - exists log. cbn. now rewrite !app_nil_r.
  - rewrite seqZ_cons by lia.
    replace (Z.pred (Z.of_nat (S m))) with (Z.of_nat m) by lia.
    rewrite sim_loop_cons. cbn [random_rollout].
    pose proof (randint_draw_range 0 kk g ltac:(lia)) as Ha.
    destruct (randint_draw 0 kk g) as [a g1] eqn:Earm. cbn [fst] in Ha.
    erewrite bind_Return
      by (rewrite logged_eq; cbn [ctx choose_arm RandomAlg.algorithm];
          rewrite RandomAlg_choose_arm_eq by (cbn [k]; lia);
          cbn [k np_random]; rewrite Earm; reflexivity).
    unfold set_np_random. cbn [fst snd self k np_random ctx true_arm_means calls].
    destruct (np_getitem_in_range means a) as (loc & Eloc & Eget); [lia | ].
    erewrite bind_Return by (unfold getitem_true_arm_means; cbn [true_arm_means];
                             rewrite Eget; reflexivity).
    rewrite Eloc. unfold default. cbn [from_option]. unfold id.
    destruct (normal_draw loc 1%float g1) as [x g2] eqn:Edraw.
    erewrite bind_Return
      by (rewrite logged_eq; cbn [ctx norm_rvs squeeze_left np_random]; rewrite Edraw; reflexivity).
    erewrite bind_Return by (rewrite logged_eq; reflexivity).
    subst t0.
    erewrite bind_Return
      by (unfold of_outcome; rewrite (np_setitem_next_cell done m (Scalar x) x eq_refl);
          reflexivity).
    erewrite bind_Return by reflexivity.
    unfold set_np_random. cbn [ctx true_arm_means calls self k np_random].
    destruct (IH (Z.succ (Z.of_nat (length done))) (done ++ [x]) g2
                (((((log ++ [EvChoose (PyInt a)]) ++ [EvSample (Scalar loc) (Scalar x)])
                   ++ [EvObserve (PyInt a) (Scalar x)])
                  ++ [EvStore (Z.of_nat (length done)) (Scalar x)])))
      as (log' & E); [rewrite length_app; cbn; lia | ].
    exists log'. rewrite E.
    destruct (random_rollout m kk means g2) as [xs g3]. cbn [fst snd].
    now rewrite <- app_assoc.
Qed.

(** X14. What a run of [RandomAlg] computes, as a recursion on the
    generator: with [0 < k <= len(true_arm_means)] ([k] within the 64-bit
    range) and [n >= 0], the trace of [run_simulation] and the generator it
    leaves behind are those of [n] rounds of "draw an arm with
    [randint(0, k)], then draw a reward around the mean of that arm", in
    this order and with no other use of the generator. *)
Theorem RandomAlg_run_is_rollout {G : Type} `{RandomState G} (n : Z) (s : store G RandomAlg.t) :
  0 <= n -> 0 < k (ctx s) <= int64_bound ->
  k (ctx s) <= Z.of_nat (length (true_arm_means s)) ->
  fst (run_simulation n s) =
    Return (fst (random_rollout (Z.to_nat n) (k (ctx s)) (true_arm_means s)
                   (np_random (ctx s)))) /\
  np_random (ctx (snd (run_simulation n s))) =
    snd (random_rollout (Z.to_nat n) (k (ctx s)) (true_arm_means s) (np_random (ctx s))).
Proof.
  intros Hn Hk Hlen. destruct s as [[[] g kk] means log].
  cbn [ctx true_arm_means calls k np_random] in *.
  unfold run_simulation, np_zeros. destruct (Z.ltb_spec n 0); [lia | ].
  erewrite bind_Return by reflexivity.
  erewrite bind_Return by (rewrite logged_eq; reflexivity).
  cbn [ctx true_arm_means calls]. unfold range.
  destruct (RandomAlg_sim_loop_rollout means kk (Z.to_nat n) Hk Hlen 0 [] g (log ++ [EvReset]))
    as (log' & E); [reflexivity | ].
  rewrite Z2Nat.id in E by exact Hn. cbn [app] in E. rewrite E. split; reflexivity.
Qed.

Lemma RandomAlg_run_is_rollout_witness :
  0 <= 4 /\ 0 < k (ctx random_store) <= int64_bound /\
  k (ctx random_store) <= Z.of_nat (length (true_arm_means random_store)) /\
  fst (run_simulation 4 random_store) =
    Return (fst (random_rollout 4 3 three_arms 2077)) /\
  fst (random_rollout 4 3 three_arms 2077) = [6%float; 1%float; 1%float; 4%float].
Proof.
  assert (Hk : 0 < k (ctx random_store) <= int64_bound) by (cbn; unfold int64_bound; lia).
  assert (Hlen : k (ctx random_store) <= Z.of_nat (length (true_arm_means random_store)))
    by (cbn; lia).
  split; [lia | ]. split; [exact Hk | ]. split; [exact Hlen | ].
  split; [ | reflexivity].
  apply (RandomAlg_run_is_rollout 4 random_store); [lia | exact Hk | exact Hlen].
Defined.
